(** * Region detection and mirror configuration: a shallow embedding

    The Python package [tools/network_region] detects whether a host sits
    behind a restricted network and rewrites two tool configuration files
    (uv's [uv.toml], Docker's [config.json]) with the mirror chosen for the
    region.  This development embeds

    - [config_loader.py]: [NetworkLocation], [ConfigManager] with
      [_load_config], [reload_config], [update_config], [get_default_mirror]
      and its two wrappers, the list lookups;
    - [network.py]: [_http_head_fast], [_count_successful_domains],
      [check_network_location], [check_internet_connection];
    - [mirror_manager.py]: [MirrorManager.update_uv_mirror],
      [update_docker_mirror], [update_all_mirrors], [get_mirror_status];
    - [cli.py]: the [detect] and [update] commands;
    - [install_docker.py]: the command table and the [install] command;

    and proves the properties the specification states about them.

    Conventions.  Values that come out of YAML, JSON or TOML parsers are
    dynamically typed, so they are embedded as one type [pyval] and the
    dictionary and list operations the code uses are embedded with the
    exceptions Python raises on the wrong kind of value.  Dictionaries are
    finite maps with string keys.  Ratios are exact rationals: the code
    computes [successful / total] in binary floating point and compares it
    with [0.6]; for the totals that can occur (far below 2^50) the rounded
    quotient exceeds the rounded constant exactly when the exact quotient
    exceeds 3/5, so the comparison is the rational one.

    What the file system, the network, the parsers and the Rich console do
    is given by an environment: whether a directory can be made and a file
    opened, what loading a file returns or raises, and which of the texts
    handed to [console.print] Rich accepts as markup.  What a run does is
    recorded in a world: the log records, and what each of the two files
    holds once it has been opened for writing. *)

From Stdlib Require Import QArith Lqa.
From stdpp Require Import gmap strings list fin_maps pretty.

Set Warnings "-register-all".

(* ===================================================================== *)
(** * Python values, exceptions and the container operations used        *)
(* ===================================================================== *)

Module Python.

(** The values [yaml.safe_load], [json.load] and [tomllib.load] return.
    A float is given by its [str] and by whether it is non-zero, a date
    (or time, or datetime) by its [str]; bytes and sets come out of YAML
    only, from its binary and set tags.  Dictionary keys are strings, as
    in every document the tools write. *)
Inductive pyval : Type :=
  | PNone
  | PBool (b : bool)
  | PInt (z : Z)
  | PFloat (text : string) (nonzero : bool)
  | PStr (s : string)
  | PBytes (b : string)
  | PDate (text : string)
  | PList (l : list pyval)
  | PSet (members : list pyval)
  | PDict (d : gmap string pyval).

(** The exception classes that occur on the modelled paths.
    [MarkupError] is Rich's: [console.print] parses its text as markup and
    raises it on a closing tag that matches no open tag. *)
Inductive exn : Type :=
  | AttributeError
  | TypeError
  | KeyError
  | FileNotFoundError
  | PermissionError
  | UnicodeDecodeError
  | YAMLError
  | JSONDecodeError
  | TOMLDecodeError
  | MarkupError.

Inductive res (A : Type) : Type :=
  | Ok (a : A)
  | Raise (e : exn).
Arguments Ok {A} a.
Arguments Raise {A} e.

Definition is_ok {A} (r : res A) : bool :=
  match r with Ok _ => true | Raise _ => false end.

(** [bool(v)] *)
Definition truthy (v : pyval) : bool :=
  match v with
  | PNone => false
  | PBool b => b
  | PInt z => negb (z =? 0)%Z
  | PFloat _ nonzero => nonzero
  | PStr s | PBytes s => negb (String.eqb s "")
  | PDate _ => true
  | PList l | PSet l => negb (Nat.eqb (length l) 0)
  | PDict d => negb (Nat.eqb (size d) 0)
  end.

(** [o.get(k, dflt)]: only dictionaries have the method. *)
Definition py_get (o : pyval) (k : string) (dflt : pyval) : res pyval :=
  match o with
  | PDict d => Ok (default dflt (d !! k))
  | _ => Raise AttributeError
  end.

(** [needle in hay] for strings: substring test. *)
Fixpoint is_substring (needle hay : string) : bool :=
  String.prefix needle hay
  || match hay with
     | EmptyString => false
     | String _ hay' => is_substring needle hay'
     end.

(** [k in o] for a string [k]. *)
Definition py_contains (k : string) (o : pyval) : res bool :=
  match o with
  | PDict d => Ok (bool_decide (is_Some (d !! k)))
  | PList l | PSet l =>
      Ok (existsb (fun x => match x with PStr s => String.eqb s k | _ => false end) l)
  | PStr s => Ok (is_substring k s)
  | PNone | PBool _ | PInt _ | PFloat _ _ | PBytes _ | PDate _ => Raise TypeError
  end.

(** [o[k]] for a string [k]. *)
Definition py_getitem (o : pyval) (k : string) : res pyval :=
  match o with
  | PDict d => match d !! k with Some v => Ok v | None => Raise KeyError end
  | _ => Raise TypeError
  end.

(** [o[k] = v] for a string [k]. *)
Definition py_setitem (o : pyval) (k : string) (v : pyval) : res pyval :=
  match o with
  | PDict d => Ok (PDict (<[k := v]> d))
  | _ => Raise TypeError
  end.

(** [del o[k]] for a string [k]. *)
Definition py_delitem (o : pyval) (k : string) : res pyval :=
  match o with
  | PDict d =>
      match d !! k with
      | Some _ => Ok (PDict (delete k d))
      | None => Raise KeyError
      end
  | _ => Raise TypeError
  end.

(** Whether [json.dump] can encode the value: the encoder raises
    [TypeError] at the first date, bytes or set it reaches. *)
Fixpoint json_serialisable (v : pyval) : bool :=
  match v with
  | PNone | PBool _ | PInt _ | PFloat _ _ | PStr _ => true
  | PBytes _ | PDate _ | PSet _ => false
  | PList l => forallb json_serialisable l
  | PDict d => map_fold (fun _ x acc => json_serialisable x && acc) true d
  end.

End Python.
Export Python.

(* ===================================================================== *)
(** * config_loader.py                                                    *)
(* ===================================================================== *)

Module ConfigLoader.

(** [class NetworkLocation(str, Enum)] *)
Inductive NetworkLocation : Type := CHINA | GLOBAL | UNKNOWN.

(** The member's string value: a [str]-mixin enum member hashes and
    compares as this string, so it is the key dictionaries are indexed by. *)
Definition value (l : NetworkLocation) : string :=
  match l with
  | CHINA => "china"
  | GLOBAL => "global"
  | UNKNOWN => "unknown"
  end.

(** What opening and parsing [config/mirrors.yaml] does. *)
Inductive yaml_read : Type :=
  | ReadRaises (e : exn)      (* [open] or [yaml.safe_load] raises [e] *)
  | ReadReturns (v : pyval).  (* [yaml.safe_load] returns [v] *)

Record config_file : Type := {
  path_exists : bool;         (* [config_path.exists()] *)
  read : yaml_read
}.

(** [ConfigManager.get_config_path]: the path, or [None]. *)
Definition get_config_path (f : config_file) : option yaml_read :=
  if path_exists f then Some (read f) else None.

(** [except (FileNotFoundError, yaml.YAMLError)] *)
Definition load_handler_catches (e : exn) : bool :=
  match e with
  | FileNotFoundError | YAMLError => true
  | _ => false
  end.

(** [ConfigManager._load_config] *)
Definition _load_config (f : config_file) : res pyval :=
  match get_config_path f with
  | None => Ok (PDict ∅)
  | Some (ReadReturns v) => Ok (if truthy v then v else PDict ∅)
  | Some (ReadRaises e) =>
      if load_handler_catches e then Ok (PDict ∅) else Raise e
  end.

(** [get_default_mirror(mirror_type, location, default_value)], with the
    cached configuration passed explicitly.  Python evaluates the inner
    [mirrors.get(NetworkLocation.GLOBAL, default_value)] before the outer
    call. *)
Definition get_default_mirror (config : pyval) (mirror_type : string)
    (location : NetworkLocation) (default_value : pyval) : res pyval :=
  match py_get config mirror_type (PDict ∅) with
  | Raise e => Raise e
  | Ok mirrors =>
      match py_get mirrors (value GLOBAL) default_value with
      | Raise e => Raise e
      | Ok fallback => py_get mirrors (value location) fallback
      end
  end.

Definition get_default_pip_mirror (config : pyval) (location : NetworkLocation)
    : res pyval :=
  get_default_mirror config "default_pip_mirror" location (PStr "").

Definition get_default_docker_mirror (config : pyval) (location : NetworkLocation)
    : res pyval :=
  get_default_mirror config "default_docker_mirror" location (PStr "").

End ConfigLoader.
Export ConfigLoader.

(* ===================================================================== *)
(** * network.py                                                          *)
(* ===================================================================== *)

Module Network.

(** What [requests.head] does for one domain. *)
Inductive head_outcome : Type :=
  | Responded (elapsed : Q)   (* a response arrived after [elapsed] seconds *)
  | RequestFails              (* raises [RequestException] *)
  | OtherError.               (* raises anything else *)

(** What [future.result()] gives: the pair returned, or an exception. *)
Inductive future : Type :=
  | Returned (success : bool) (response_time : Q)
  | Raised.

(** [_http_head_fast] as run by the executor. *)
Definition _http_head_fast (o : head_outcome) : future :=
  match o with
  | Responded t => Returned true t
  | RequestFails => Returned false 0
  | OtherError => Raised
  end.

Record ProbeSummary : Type := {
  success_rate : Q;
  avg_response_time : Q
}.

(** One iteration of the loop over [as_completed(futures_dict)]:
    the pair is [(successful, total_time)]. *)
Definition tally (acc : nat * Q) (f : future) : nat * Q :=
  match f with
  | Returned true response_time => (S (fst acc), (snd acc + response_time)%Q)
  | Returned false _ => acc
  | Raised => acc
  end.

Definition ratio (n : nat) (d : nat) : Q :=
  (inject_Z (Z.of_nat n) / inject_Z (Z.of_nat d))%Q.

(** [_count_successful_domains] *)
Definition _count_successful_domains (futures_dict : list future) : ProbeSummary :=
  let total := length futures_dict in
  let '(successful, total_time) := fold_left tally futures_dict (0%nat, 0%Q) in
  let avg_time :=
    if (0 <? successful)%nat
    then (total_time / inject_Z (Z.of_nat successful))%Q else 0%Q in
  let success_rate :=
    if (0 <? total)%nat then ratio successful total else 0%Q in
  {| success_rate := success_rate; avg_response_time := avg_time |}.

Definition china_domains : list string :=
  ["baidu.com"; "taobao.com"; "qq.com"; "aliyun.com"; "163.com"].
Definition global_domains : list string :=
  ["google.com"; "facebook.com"; "twitter.com"; "github.com"; "cloudflare.com"].

(** The decision at the end of [check_network_location]. *)
Definition classify (china_results global_results : ProbeSummary) : NetworkLocation :=
  if Qlt_le_dec (6 # 10) (success_rate global_results)
  then GLOBAL
  else if Qlt_le_dec (5 # 10) (success_rate china_results)
       then CHINA
       else CHINA.

(** [check_network_location], the network being a function from domain
    to what the HEAD request does. *)
Definition check_network_location (net : string -> head_outcome) : NetworkLocation :=
  let china_futures := map (fun domain => _http_head_fast (net domain)) china_domains in
  let global_futures := map (fun domain => _http_head_fast (net domain)) global_domains in
  let china_results := _count_successful_domains china_futures in
  let global_results := _count_successful_domains global_futures in
  classify china_results global_results.

End Network.
Export Network.

(* ===================================================================== *)
(** * mirror_manager.py                                                   *)
(* ===================================================================== *)

Module MirrorManager.

(** ** The environment of one writer and the effects of a run *)

(** What is found at a tool's configuration path when the writer reads it. *)
Inductive file_read : Type :=
  | FileAbsent                (* [exists()] is false *)
  | LoadRaises (e : exn)      (* [open] or the parser raises [e] *)
  | LoadReturns (v : pyval).  (* the parser returns [v] *)

(** The [console.print] calls whose text interpolates a value known only
    at run time, each with that value.  Rich parses the whole text as
    markup and raises [MarkupError] on a closing tag that matches no open
    tag, so a value such as [https://host/[/v2]] makes the call raise;
    which texts Rich accepts is its own business and is part of the
    environment.  The calls that print a constant text, or one of the
    three location names, always return and are not listed. *)
Inductive console_message : Type :=
  | UvUpdated (default_mirror : pyval)       (* mirror_manager.py:118 *)
  | DockerUpdated (default_mirror : pyval)   (* mirror_manager.py:161 *)
  | CurrentUv (uv_mirror : pyval)            (* mirror_manager.py:267 *)
  | CurrentPip (pip_mirror : string)         (* mirror_manager.py:269 *)
  | RecommendedUv (mirror : pyval)           (* mirror_manager.py:275 *)
  | CurrentDocker (docker_mirror : pyval)    (* mirror_manager.py:276, 280 *)
  | RecommendedDocker (mirror : pyval)       (* mirror_manager.py:277 *)
  | InvalidLocation (location : string)      (* cli.py:66, install_docker.py:181 *)
  | SystemInfo (system version : string)     (* install_docker.py:190 *)
  | UnsupportedSystem (system : string)      (* install_docker.py:194 *)
  | ProcessOutput (cmd : string).            (* install_docker.py:219, 221-222 *)

(** [true]: Rich accepts the text and the call returns. *)
Definition console : Type := console_message -> bool.

Record tool_env : Type := {
  mkdir_ok : bool;            (* [mkdir(parents=True, exist_ok=True)] succeeds *)
  on_disk : file_read;
  open_w_ok : bool;           (* [open(file, "w")] succeeds *)
  rich : console
}.

Record env : Type := {
  uv_env : tool_env;          (* ~/.config/uv/uv.toml *)
  docker_env : tool_env       (* ~/.docker/config.json *)
}.

Inductive level : Type := DEBUG | INFO | WARNING | ERROR.

(** How the formatter of [update_uv_mirror] writes one value (the three
    branches on [isinstance]): booleans and numbers bare, through Python's
    [str], so a boolean appears capitalised; everything else as its [str]
    between double quotes, nothing escaped. *)
Inductive toml_rhs : Type :=
  | Bare (text : string)
  | Quoted (v : pyval).

(** What [config.json] holds once it has been opened for writing: the
    whole encoding of a document, or, when [json.dump] raised on the way,
    the part of the encoding written before that. *)
Inductive json_file : Type :=
  | Dumped (doc : pyval)
  | Interrupted (doc : pyval).

(** What a run has done so far: the [logger] records, and for each file
    what has been written to it ([None]: not opened for writing, the file
    is as it was; opening truncates).  For [uv.toml] the content is the
    list of [[[index]]] tables written, each key with the right-hand side
    the formatter wrote for it; key order within a table is not kept.
    Writes to an open file are taken not to fail for reasons outside the
    program, such as a full disk. *)
Record world : Type := {
  log : list (level * string);
  uv_toml : option (list (gmap string toml_rhs));
  docker_json : option json_file
}.

Definition initial_world : world :=
  {| log := []; uv_toml := None; docker_json := None |}.

(** Computations that log, write and may raise. *)
Definition M (A : Type) : Type := world -> world * res A.

Definition ret {A} (a : A) : M A := fun w => (w, Ok a).

Definition bind {A B} (m : M A) (k : A -> M B) : M B :=
  fun w =>
    match m w with
    | (w', Ok a) => k a w'
    | (w', Raise e) => (w', Raise e)
    end.

Definition lift {A} (r : res A) : M A := fun w => (w, r).

Definition raise {A} (e : exn) : M A := lift (Raise e).

(** [try: m  except Exception as e: handler] *)
Definition try_except {A} (m : M A) (handler : exn -> M A) : M A :=
  fun w =>
    match m w with
    | (w', Ok a) => (w', Ok a)
    | (w', Raise e) => handler e w'
    end.

Definition logger (l : level) (message : string) : M unit :=
  fun w =>
    ({| log := log w ++ [(l, message)];
        uv_toml := uv_toml w;
        docker_json := docker_json w |}, Ok tt).

Definition put_uv_toml (tables : list (gmap string toml_rhs)) : M unit :=
  fun w =>
    ({| log := log w; uv_toml := Some tables; docker_json := docker_json w |}, Ok tt).

Definition put_docker_json (doc : json_file) : M unit :=
  fun w =>
    ({| log := log w; uv_toml := uv_toml w; docker_json := Some doc |}, Ok tt).

Declare Scope M_scope.
Delimit Scope M_scope with M.
Notation "x <- m ;; k" := (bind m (fun x => k))
  (at level 100, m at next level, right associativity) : M_scope.
Notation "m ;;; k" := (bind m (fun _ => k))
  (at level 100, right associativity) : M_scope.
Local Open Scope M_scope.

Definition mkdir (e : tool_env) : M unit :=
  if mkdir_ok e then ret tt else raise PermissionError.

Definition open_for_writing (e : tool_env) : M unit :=
  if open_w_ok e then ret tt else raise PermissionError.

(** [console.print] of one of the listed messages. *)
Definition console_print (accepts : console) (message : console_message) : M unit :=
  if accepts message then ret tt else raise MarkupError.

(** [console.print(f"[red]...: {str(e)}[/red]")] in the handlers of the two
    writers.  The text of a [MarkupError] quotes the closing tag that
    matched nothing; inside [[red]...[/red]] that tag, or the final
    [[/red]] after it, matches nothing either, so the call raises again.
    The texts of the other exceptions are Python's own messages, which
    carry no tag (the path of the home directory is taken to carry
    none). *)
Definition print_failure (e : exn) : M unit :=
  match e with
  | MarkupError => raise MarkupError
  | _ => ret tt
  end.

(** The block
<<
    config_data = {}
    if file.exists():
        try: config_data = load(f)
        except Exception as e: logger.warning(...)
>>  *)
Definition read_existing (e : tool_env) (warning : string) : M pyval :=
  match on_disk e with
  | FileAbsent => ret (PDict ∅)
  | LoadRaises _ => logger WARNING warning ;;; ret (PDict ∅)
  | LoadReturns v => ret v
  end.

(** ** The manager object *)

Record MirrorManager : Type := {
  network_location : NetworkLocation;
  config : pyval              (* the configuration [load_config()] returns *)
}.

(** [MirrorManager.__init__]: every member of the enumeration is a
    non-empty string, so [network_location or check_network_location()]
    probes only for [None]. *)
Definition __init__ (location : option NetworkLocation)
    (net : string -> head_outcome) (cfg : pyval) : MirrorManager :=
  {| network_location :=
       match location with
       | Some l => l
       | None => check_network_location net
       end;
     config := cfg |}.

(** ** update_uv_mirror *)

(** The entry appended when no default index exists. *)
Definition new_default_entry (default_mirror : pyval) : gmap string pyval :=
  <["url" := default_mirror]> (<["default" := PBool true]> ∅).

(** The loop over [enumerate(config_data["index"])] on a list: the first
    entry whose [default] is truthy gets its [url] replaced and the loop
    breaks.  The boolean is [default_index_exists]. *)
Fixpoint set_default_url (default_mirror : pyval) (index : list pyval)
    : res (list pyval * bool) :=
  match index with
  | [] => Ok ([], false)
  | entry :: rest =>
      match py_get entry "default" (PBool false) with
      | Raise e => Raise e
      | Ok flag =>
          if truthy flag then
            match py_setitem entry "url" default_mirror with
            | Raise e => Raise e
            | Ok entry' => Ok (entry' :: rest, true)
            end
          else
            match set_default_url default_mirror rest with
            | Raise e => Raise e
            | Ok (rest', found) => Ok (entry :: rest', found)
            end
      end
  end.

(** The loop and the append that follows it, on whatever
    [config_data["index"]] is: iterating a dictionary, a string, bytes or
    a set yields keys, characters, integers or hashable members, none of
    which has a [get], and none of the four has [append]; the other values
    are not iterable. *)
Definition update_index (default_mirror : pyval) (index : pyval) : res (list pyval) :=
  match index with
  | PList l =>
      match set_default_url default_mirror l with
      | Raise e => Raise e
      | Ok (l', true) => Ok l'
      | Ok (l', false) => Ok (l' ++ [PDict (new_default_entry default_mirror)])
      end
  | PDict _ | PStr _ | PBytes _ | PSet _ => Raise AttributeError
  | PNone | PBool _ | PInt _ | PFloat _ _ | PDate _ => Raise TypeError
  end.

Definition render_value (value : pyval) : toml_rhs :=
  match value with
  | PBool b => Bare (if b then "True" else "False")
  | PInt z => Bare (pretty z)
  | PFloat text _ => Bare text
  | _ => Quoted value
  end.

(** The lines written for one entry, [for key, value in index.items()]. *)
Definition format_entry (entry : gmap string pyval) : gmap string toml_rhs :=
  render_value <$> entry.

(** The write loop: a [[[index]]] header per entry, then its items; an
    entry that is not a dictionary has no [items], and the header already
    written for it is an empty table. *)
Fixpoint write_index (written : list (gmap string toml_rhs)) (index : list pyval)
    : M unit :=
  match index with
  | [] => put_uv_toml written
  | PDict entry :: rest => write_index (written ++ [format_entry entry]) rest
  | _ :: _ => put_uv_toml (written ++ [∅]) ;;; raise AttributeError
  end.

Definition uv_body (self : MirrorManager) (e : tool_env) : M bool :=
  mkdir e ;;;
  default_mirror <- lift (get_default_pip_mirror (config self) (network_location self)) ;;
  config_data <- read_existing e "Failed to load existing UV config" ;;
  has_index <- lift (py_contains "index" config_data) ;;
  config_data <- (if has_index then ret config_data
                  else lift (py_setitem config_data "index" (PList []))) ;;
  index <- lift (py_getitem config_data "index") ;;
  index' <- lift (update_index default_mirror index) ;;
  open_for_writing e ;;;
  write_index [] index' ;;;
  logger INFO "UV mirror updated successfully" ;;;
  console_print (rich e) (UvUpdated default_mirror) ;;;
  ret true.

(** The handler prints too, so what it catches can leave it again. *)
Definition update_uv_mirror (self : MirrorManager) (e : tool_env) : M bool :=
  try_except (uv_body self e)
    (fun x => logger ERROR "Failed to update UV mirror" ;;;
              print_failure x ;;;
              ret false).

(** ** update_docker_mirror *)

Definition registry_mirrors : string := "registry-mirrors".

(** [json.dump(config_data, f, indent=2)] on the file just truncated: the
    encoder writes as it goes and raises [TypeError] at a value it cannot
    encode. *)
Definition json_dump (doc : pyval) : M unit :=
  if json_serialisable doc then put_docker_json (Dumped doc)
  else put_docker_json (Interrupted doc) ;;; raise TypeError.

Definition docker_body (self : MirrorManager) (e : tool_env) : M bool :=
  mkdir e ;;;
  default_mirror <- lift (get_default_docker_mirror (config self) (network_location self)) ;;
  config_data <- read_existing e "Failed to load existing Docker config" ;;
  config_data <-
    (if negb (truthy default_mirror) then
       present <- lift (py_contains registry_mirrors config_data) ;;
       if present then
         config_data' <- lift (py_delitem config_data registry_mirrors) ;;
         logger INFO "Removed Docker registry mirrors configuration" ;;;
         ret config_data'
       else ret config_data
     else
       config_data' <- lift (py_setitem config_data registry_mirrors
                               (PList [default_mirror])) ;;
       logger INFO "Updated Docker registry mirror" ;;;
       console_print (rich e) (DockerUpdated default_mirror) ;;;
       ret config_data') ;;
  open_for_writing e ;;;
  json_dump config_data ;;;
  ret true.

Definition update_docker_mirror (self : MirrorManager) (e : tool_env) : M bool :=
  try_except (docker_body self e)
    (fun x => logger ERROR "Failed to update Docker mirror" ;;;
              print_failure x ;;;
              ret false).

(** ** update_all_mirrors: the dictionary display evaluates its values in
    order, the uv writer first. *)
Definition update_all_mirrors (self : MirrorManager) (e : env)
    : M (gmap string bool) :=
  uv <- update_uv_mirror self (uv_env e) ;;
  docker <- update_docker_mirror self (docker_env e) ;;
  let results : gmap string bool := <["uv" := uv]> (<["docker" := docker]> ∅) in
  logger INFO "All mirrors update results" ;;;
  ret results.

End MirrorManager.
Export MirrorManager.

(* ===================================================================== *)
(** * config_loader.py: the list lookups and the configuration manager    *)
(* ===================================================================== *)

Module ConfigLookups.

(** [get_mirrors_for_location]: the default of the inner [get] is a list,
    except for the kind [apt_mirrors], where it is a mapping. *)
Definition get_mirrors_for_location (config : pyval) (mirror_type : string)
    (location : NetworkLocation) : res pyval :=
  match py_get config mirror_type (PDict ∅) with
  | Raise e => Raise e
  | Ok section =>
      py_get section (value location)
        (if String.eqb mirror_type "apt_mirrors" then PDict ∅ else PList [])
  end.

(** [if version:] for an optional string. *)
Definition version_given (version : option string) : option string :=
  match version with
  | Some v => if String.eqb v "" then None else Some v
  | None => None
  end.

(** [get_apt_mirrors(location, distro, version)] *)
Definition get_apt_mirrors (config : pyval) (location : NetworkLocation)
    (distro : string) (version : option string) : res pyval :=
  match get_mirrors_for_location config "apt_mirrors" location with
  | Raise e => Raise e
  | Ok mirrors =>
      match py_contains distro mirrors with
      | Raise e => Raise e
      | Ok false => Ok (PList [])
      | Ok true =>
          match version_given version with
          | Some v =>
              match py_get mirrors distro (PDict ∅) with
              | Raise e => Raise e
              | Ok versions => py_get versions v (PList [])
              end
          | None => py_get mirrors distro (PDict ∅)
          end
      end
  end.

Definition get_pip_mirrors (config : pyval) (location : NetworkLocation) : res pyval :=
  get_mirrors_for_location config "pip_mirrors" location.

Definition get_docker_mirrors (config : pyval) (location : NetworkLocation) : res pyval :=
  get_mirrors_for_location config "docker_mirrors" location.

(** ** [ConfigManager]: one instance, one cache

    The state of the singleton is its [_config_cache]: [None] until the
    first [__init__], a configuration afterwards. *)

(** [ConfigManager.__init__], run at every [ConfigManager()]. *)
Definition ConfigManager_init (f : config_file) (_config_cache : option pyval)
    : res (option pyval) :=
  match _config_cache with
  | Some _ => Ok _config_cache
  | None =>
      match _load_config f with
      | Ok config => Ok (Some config)
      | Raise e => Raise e
      end
  end.

(** [reload_config]: the new cache and what is returned; when loading
    raises, the assignment does not happen. *)
Definition reload_config (f : config_file) (_config_cache : pyval)
    : pyval * res pyval :=
  match _load_config f with
  | Ok config => (config, Ok config)
  | Raise e => (_config_cache, Raise e)
  end.

(** [get_config], which is what the module-level [load_config] returns. *)
Definition get_config (_config_cache : pyval) : pyval := _config_cache.

(** [open(config_path, "w")]: [get_config_path] gives [None] for a missing
    file, and [open(None, "w")] is a [TypeError]. *)
Definition open_config_for_writing (config_path : option yaml_read) (writable : bool)
    : res unit :=
  match config_path with
  | None => Raise TypeError
  | Some _ => if writable then Ok tt else Raise PermissionError
  end.

(** [update_config(new_config)]: the new cache, the document handed to
    [yaml.dump] when the file was opened, and the boolean returned. *)
Definition update_config (f : config_file) (writable : bool)
    (_config_cache : pyval) (new_config : pyval) : pyval * option pyval * bool :=
  match open_config_for_writing (get_config_path f) writable with
  | Ok _ => (new_config, Some new_config, true)
  | Raise _ => (_config_cache, None, false)
  end.

End ConfigLookups.
Export ConfigLookups.

(* ===================================================================== *)
(** * network.py: the connectivity check                                  *)
(* ===================================================================== *)

Module Connectivity.

(** What [socket.create_connection((domain, 80), timeout=1)] does. *)
Inductive connect_outcome : Type :=
  | Connected
  | TimedOut                  (* [socket.timeout] *)
  | NameNotResolved           (* [socket.gaierror] *)
  | ConnectionRefused         (* [ConnectionRefusedError] *)
  | OtherFailure.             (* any other exception, not caught there *)

(** What [future.result()] gives for one connection attempt. *)
Inductive socket_future : Type :=
  | SocketReturned (connected : bool)
  | SocketRaised.

(** [_check_socket_connection] as run by the executor. *)
Definition _check_socket_connection (o : connect_outcome) : socket_future :=
  match o with
  | Connected => SocketReturned true
  | TimedOut | NameNotResolved | ConnectionRefused => SocketReturned false
  | OtherFailure => SocketRaised
  end.

Definition test_domains : list string :=
  ["baidu.com"; "google.com"; "cloudflare.com"; "aliyun.com"].

(** The loop over [as_completed(futures)]: return at the first true
    result, pass over exceptions. *)
Fixpoint first_connected (completed : list socket_future) : bool :=
  match completed with
  | [] => false
  | SocketReturned true :: _ => true
  | SocketReturned false :: rest => first_connected rest
  | SocketRaised :: rest => first_connected rest
  end.

(** [check_internet_connection]: [tcp] is what each connection attempt
    does and [completion] the order in which the four futures complete. *)
Definition check_internet_connection (tcp : string -> connect_outcome)
    (completion : list string) : bool :=
  first_connected (map (fun domain => _check_socket_connection (tcp domain)) completion).

End Connectivity.
Export Connectivity.

(* ===================================================================== *)
(** * mirror_manager.py: the status reader                                *)
(* ===================================================================== *)

Module Status.

Local Open Scope M_scope.

(** Strings hold the UTF-8 encoding of a Python [str]; [s[0]] is its first
    code point, whose length the leading byte gives. *)
Definition utf8_width (c : Ascii.ascii) : nat :=
  let n := Ascii.nat_of_ascii c in
  if (n <? 128)%nat then 1%nat
  else if (n <? 224)%nat then 2%nat
  else if (n <? 240)%nat then 3%nat
  else 4%nat.

Definition first_char (s : string) : string :=
  match s with
  | EmptyString => EmptyString
  | String c _ => String.substring 0 (utf8_width c) s
  end.

(** The loop of the uv block on a list:
<<
    for index in ...:
        if index.get("default", False):
            uv_mirror = index.get("url"); break
>>  The result is [uv_mirror], [None] when the loop finds nothing. *)
Fixpoint first_default_url (index : list pyval) : res pyval :=
  match index with
  | [] => Ok PNone
  | entry :: rest =>
      match py_get entry "default" (PBool false) with
      | Raise e => Raise e
      | Ok flag =>
          if truthy flag then py_get entry "url" PNone
          else first_default_url rest
      end
  end.

(** The same loop on whatever [config_data.get("index", [])] is: an empty
    mapping, string, bytes or set gives no iteration, a non-empty one
    yields keys, characters, integers or hashable members, which have no
    [get]; the other values are not iterable. *)
Definition scan_index (index : pyval) : res pyval :=
  match index with
  | PList l => first_default_url l
  | PDict d => if Nat.eqb (size d) 0 then Ok PNone else Raise AttributeError
  | PStr s | PBytes s => if String.eqb s "" then Ok PNone else Raise AttributeError
  | PSet l => if Nat.eqb (length l) 0 then Ok PNone else Raise AttributeError
  | PNone | PBool _ | PInt _ | PFloat _ _ | PDate _ => Raise TypeError
  end.

Definition uv_read_error : string := "Error reading UV config".

(** The uv block: [uv_mirror] stays [None] when the file is absent or
    anything inside the [try] raises. *)
Definition read_uv_mirror (f : file_read) : M pyval :=
  match f with
  | FileAbsent => ret PNone
  | LoadRaises _ => logger ERROR uv_read_error ;;; ret PNone
  | LoadReturns config_data =>
      try_except
        (index <- lift (py_get config_data "index" (PList [])) ;;
         lift (scan_index index))
        (fun _ => logger ERROR uv_read_error ;;; ret PNone)
  end.

(** ** The pip fallback *)

(** What [subprocess.run(["pip", "config", "list"], ...)] does. *)
Inductive pip_run : Type :=
  | PipRaises
  | PipReturns (returncode : Z) (stdout : string).

(** The two quote characters of the pattern's classes: the apostrophe is
    39, the double quote 34. *)
Definition is_quote (c : Ascii.ascii) : bool :=
  Ascii.eqb c (Ascii.ascii_of_nat 39) || Ascii.eqb c (Ascii.ascii_of_nat 34).

(** The longest run of characters that are not quotes at the head of a
    string, and what follows it. *)
Fixpoint span_unquoted (s : string) : string * string :=
  match s with
  | EmptyString => (EmptyString, EmptyString)
  | String c s' =>
      if is_quote c then (EmptyString, s)
      else let (run, rest) := span_unquoted s' in (String c run, rest)
  end.

(** A match of the tail of the pattern, a quote, one or more characters
    that are not quotes (greedy), a quote, at the head of a string: the
    group.  After the longest run comes a quote or the end of the string, and
    no shorter run is followed by a quote. *)
Definition match_quoted (s : string) : option string :=
  match s with
  | EmptyString => None
  | String q s' =>
      if is_quote q then
        match span_unquoted s' with
        | (String c run, String _ _) => Some (String c run)
        | _ => None
        end
      else None
  end.

Fixpoint strip_prefix (p s : string) : option string :=
  match p, s with
  | EmptyString, _ => Some s
  | String a p', String b s' => if Ascii.eqb a b then strip_prefix p' s' else None
  | String _ _, EmptyString => None
  end.

Definition match_index_url (s : string) : option string :=
  match strip_prefix "global.index-url=" s with
  | Some rest => match_quoted rest
  | None => None
  end.

(** [re.search] of the pattern on [stdout]: the literal text
    [global.index-url=], then a quote, a group of one or more characters
    that are not quotes, and a quote.  The result is the group of the
    leftmost match. *)
Fixpoint search_index_url (stdout : string) : option string :=
  match match_index_url stdout with
  | Some url => Some url
  | None =>
      match stdout with
      | EmptyString => None
      | String _ s' => search_index_url s'
      end
  end.

(** The pip block. *)
Definition read_pip_mirror (p : pip_run) : M (option string) :=
  match p with
  | PipRaises => logger ERROR "Error reading pip config" ;;; ret None
  | PipReturns returncode stdout =>
      if (returncode =? 0)%Z then ret (search_index_url stdout) else ret None
  end.

(** ** The Docker blocks *)

(** [if mirrors: ... mirrors[0]]: the first element when there is one to
    take; a non-empty mapping has no key [0], the first element of bytes
    is an integer, and a true boolean, a non-zero number, a date or a
    non-empty set cannot be indexed. *)
Definition first_if_any (mirrors : pyval) : res (option pyval) :=
  match mirrors with
  | PList [] => Ok None
  | PList (x :: _) => Ok (Some x)
  | PStr s => if String.eqb s "" then Ok None else Ok (Some (PStr (first_char s)))
  | PBytes EmptyString => Ok None
  | PBytes (String c _) => Ok (Some (PInt (Z.of_nat (Ascii.nat_of_ascii c))))
  | PDict d => if Nat.eqb (size d) 0 then Ok None else Raise KeyError
  | PBool b => if b then Raise TypeError else Ok None
  | PInt z => if (z =? 0)%Z then Ok None else Raise TypeError
  | PFloat _ nonzero => if nonzero then Raise TypeError else Ok None
  | PDate _ => Raise TypeError
  | PSet l => if Nat.eqb (length l) 0 then Ok None else Raise TypeError
  | PNone => Ok None
  end.

(** One Docker block: [docker_mirror] is [current] before it and keeps
    that value unless a first mirror is found. *)
Definition read_docker_mirror (current : pyval) (f : file_read)
    (found error : string) : M pyval :=
  match f with
  | FileAbsent => ret current
  | LoadRaises _ => logger ERROR error ;;; ret current
  | LoadReturns config_data =>
      try_except
        (mirrors <- lift (py_get config_data registry_mirrors (PList [])) ;;
         first <- lift (first_if_any mirrors) ;;
         match first with
         | Some docker_mirror => logger DEBUG found ;;; ret docker_mirror
         | None => ret current
         end)
        (fun _ => logger ERROR error ;;; ret current)
  end.

(** ** get_mirror_status *)

Record status_env : Type := {
  uv_file : file_read;              (* ~/.config/uv/uv.toml *)
  pip : pip_run;
  docker_user_file : file_read;     (* ~/.docker/config.json *)
  docker_system_file : file_read;   (* /etc/docker/daemon.json *)
  status_console : console
}.

(** The dictionary returned. *)
Record status : Type := {
  status_network_location : NetworkLocation;
  uv_mirror : pyval;
  pip_mirror : option string;
  docker_mirror : pyval;
  recommended_uv_mirror : pyval;
  recommended_docker_mirror : pyval
}.

(** [console.print(f"...{docker_mirror or '未设置'}...")], and the same
    shape for the recommended registry mirror: a false value is replaced
    by a constant text. *)
Definition print_or_constant (accepts : console) (v : pyval)
    (message : pyval -> console_message) : M unit :=
  if truthy v then console_print accepts (message v) else ret tt.

(** The report printed before the dictionary is returned: the line for
    uv, then the three lines that depend on the location. *)
Definition print_status (accepts : console) (st : status) : M unit :=
  (if truthy (uv_mirror st) then console_print accepts (CurrentUv (uv_mirror st))
   else match pip_mirror st with
        | Some url =>
            if String.eqb url "" then ret tt
            else console_print accepts (CurrentPip url)
        | None => ret tt
        end) ;;;
  match status_network_location st with
  | CHINA =>
      console_print accepts (RecommendedUv (recommended_uv_mirror st)) ;;;
      print_or_constant accepts (docker_mirror st) CurrentDocker ;;;
      print_or_constant accepts (recommended_docker_mirror st) RecommendedDocker
  | GLOBAL | UNKNOWN =>
      print_or_constant accepts (docker_mirror st) CurrentDocker
  end.

Definition get_mirror_status (net : string -> head_outcome) (config : pyval)
    (e : status_env) : M status :=
  let network_location := check_network_location net in
  uv_mirror <- read_uv_mirror (uv_file e) ;;
  pip_mirror <- (if negb (truthy uv_mirror) then read_pip_mirror (pip e)
                 else ret None) ;;
  docker_mirror <- read_docker_mirror PNone (docker_user_file e)
                     "Found Docker mirror in user config"
                     "Error reading Docker user config" ;;
  docker_mirror <- (if negb (truthy docker_mirror)
                    then read_docker_mirror docker_mirror (docker_system_file e)
                           "Found Docker mirror in system config"
                           "Error reading Docker system config"
                    else ret docker_mirror) ;;
  recommended_uv <- lift (get_default_pip_mirror config network_location) ;;
  recommended_docker <- lift (get_default_docker_mirror config network_location) ;;
  let status := {| status_network_location := network_location;
                   uv_mirror := uv_mirror;
                   pip_mirror := pip_mirror;
                   docker_mirror := docker_mirror;
                   recommended_uv_mirror := recommended_uv;
                   recommended_docker_mirror := recommended_docker |} in
  print_status (status_console e) status ;;;
  ret status.

End Status.
Export Status.

(* ===================================================================== *)
(** * cli.py                                                              *)
(* ===================================================================== *)

Module Cli.

(** How a command ends: it returns, it raises [typer.Exit(code)], or an
    exception it does not handle reaches the caller. *)
Inductive cli_outcome : Type :=
  | Completed
  | Exit (code : Z)
  | Uncaught (e : exn).

(** [NetworkLocation(v)]: the member with that value; [None] stands for
    the [ValueError]. *)
Definition NetworkLocation_of_value (v : string) : option NetworkLocation :=
  if String.eqb v "china" then Some CHINA
  else if String.eqb v "global" then Some GLOBAL
  else if String.eqb v "unknown" then Some UNKNOWN
  else None.

Section WithLower.

(** [str.lower]. *)
Variable lower : string -> string.

(** The block that parses [--location]: [None] is the invalid string (the
    command exits with code 1), [Some None] no declared location. *)
Definition resolve_location (location : option string)
    : option (option NetworkLocation) :=
  match location with
  | None => Some None
  | Some s =>
      if String.eqb s "" then Some None
      else match NetworkLocation_of_value (lower s) with
           | Some l => Some (Some l)
           | None => None
           end
  end.

(** What the commands consult. *)
Record cli_env : Type := {
  tcp : string -> connect_outcome;
  completion : list string;
  http : string -> head_outcome;
  loaded_config : pyval;
  files : env;
  cli_console : console
}.

(** The handler of the [ValueError]: it prints the string given, then
    exits with code 1.  It is reached with a non-empty string only. *)
Definition reject_location (accepts : console) (location : option string)
    : cli_outcome :=
  match location with
  | Some s => if accepts (InvalidLocation s) then Exit 1 else Uncaught MarkupError
  | None => Exit 1
  end.

(** [detect]: the outcome and the location printed. *)
Definition detect_network (c : cli_env) : cli_outcome * option NetworkLocation :=
  if negb (check_internet_connection (tcp c) (completion c)) then (Exit 1, None)
  else (Completed, Some (check_network_location (http c))).

(** [if not success: raise typer.Exit(code=1)] on what a writer gave. *)
Definition exit_unless (r : world * res bool) : world * cli_outcome :=
  match r with
  | (w, Ok true) => (w, Completed)
  | (w, Ok false) => (w, Exit 1)
  | (w, Raise e) => (w, Uncaught e)
  end.

(** [all(results.values())] *)
Definition all_values (results : gmap string bool) : bool :=
  forallb (fun kv => snd kv) (map_to_list results).

(** [update] *)
Definition update_mirrors (c : cli_env) (location : option string)
    (uv_only docker_only : bool) (w : world) : world * cli_outcome :=
  if negb (check_internet_connection (tcp c) (completion c)) then (w, Exit 1)
  else
    match resolve_location location with
    | None => (w, reject_location (cli_console c) location)
    | Some net_location =>
        let mirror_manager := __init__ net_location (http c) (loaded_config c) in
        let w := fst (logger INFO "Mirror manager initialized" w) in
        if uv_only then
          exit_unless (update_uv_mirror mirror_manager (uv_env (files c)) w)
        else if docker_only then
          exit_unless (update_docker_mirror mirror_manager (docker_env (files c)) w)
        else
          match update_all_mirrors mirror_manager (files c) w with
          | (w', Ok results) =>
              if all_values results then (w', Completed) else (w', Exit 1)
          | (w', Raise e) => (w', Uncaught e)
          end
    end.

End WithLower.

End Cli.
Export Cli.

(* ===================================================================== *)
(** * install_docker.py                                                   *)
(* ===================================================================== *)

Module InstallDocker.

Definition linux_with_mirror : list string :=
  ["curl -fsSL https://get.docker.com -o get-docker.sh";
   "sed -i 's/download.docker.com/mirrors.aliyun.com\/docker-ce/g' get-docker.sh";
   "sh get-docker.sh";
   "rm get-docker.sh";
   "sudo systemctl enable docker";
   "sudo systemctl start docker"].

Definition linux_direct : list string :=
  ["curl -fsSL https://get.docker.com -o get-docker.sh";
   "sh get-docker.sh";
   "rm get-docker.sh";
   "sudo systemctl enable docker";
   "sudo systemctl start docker"].

Definition windows_with_mirror : list string :=
  ["echo 请访问 https://mirrors.aliyun.com/docker-toolbox/windows/docker-desktop/ 下载 Docker Desktop 安装程序";
   "echo 安装完成后，请按照 https://developer.aliyun.com/article/1294592 配置镜像加速"].

Definition windows_direct : list string :=
  ["echo 请访问 https://www.docker.com/products/docker-desktop/ 下载 Docker Desktop 安装程序"].

(** [DOCKER_INSTALL_COMMANDS]: system, then location, then the commands. *)
Definition DOCKER_INSTALL_COMMANDS
    : list (string * list (NetworkLocation * list string)) :=
  [("Darwin", [(CHINA, ["brew install --cask docker"]);
               (GLOBAL, ["brew install --cask docker"]);
               (UNKNOWN, ["brew install --cask docker"])]);
   ("Linux", [(CHINA, linux_with_mirror);
              (GLOBAL, linux_direct);
              (UNKNOWN, linux_with_mirror)]);
   ("Windows", [(CHINA, windows_with_mirror);
                (GLOBAL, windows_direct);
                (UNKNOWN, windows_with_mirror)])].

Definition location_eqb (a b : NetworkLocation) : bool :=
  String.eqb (value a) (value b).

(** [d[k]] on a dictionary given by its items: [None] is the [KeyError]. *)
Fixpoint lookup_system {V} (system : string) (d : list (string * V)) : option V :=
  match d with
  | [] => None
  | (k, v) :: rest => if String.eqb k system then Some v else lookup_system system rest
  end.

Fixpoint lookup_location {V} (l : NetworkLocation) (d : list (NetworkLocation * V))
    : option V :=
  match d with
  | [] => None
  | (k, v) :: rest => if location_eqb k l then Some v else lookup_location l rest
  end.

(** What [subprocess.run(["docker", "--version"], check=False)] does. *)
Inductive docker_probe : Type :=
  | ProbeReturns (returncode : Z)
  | ProbeRaises (e : exn).

(** [except FileNotFoundError] *)
Definition probe_handler_catches (e : exn) : bool :=
  match e with
  | FileNotFoundError => true
  | _ => false
  end.

(** [check_docker_installed] *)
Definition check_docker_installed (p : docker_probe) : res bool :=
  match p with
  | ProbeReturns returncode => Ok (returncode =? 0)%Z
  | ProbeRaises e => if probe_handler_catches e then Ok false else Raise e
  end.

(** The loop over the commands with [check=True]: the commands run, in
    order, and how the loop ends.  The output of each command is printed,
    its [stdout] when it succeeded, the error and its [stderr] when it
    failed; the first failure exits with code 1, and an output that Rich
    rejects ends the loop with its exception. *)
Fixpoint execute (accepts : console) (run : string -> bool) (commands : list string)
    : list string * cli_outcome :=
  match commands with
  | [] => ([], Completed)
  | cmd :: rest =>
      if negb (accepts (ProcessOutput cmd)) then ([cmd], Uncaught MarkupError)
      else if run cmd then
        let (ran, out) := execute accepts run rest in (cmd :: ran, out)
      else ([cmd], Exit 1)
  end.

Section WithLower.

Variable lower : string -> string.

Record install_env : Type := {
  probe : docker_probe;
  install_tcp : string -> connect_outcome;
  install_completion : list string;
  install_http : string -> head_outcome;
  system : string;                 (* [platform.system()] *)
  version : string;                (* [platform.version()] *)
  run : string -> bool;            (* whether a shell command exits with 0 *)
  install_console : console
}.

(** [install]: the commands shown, the commands run, and how it ends. *)
Definition install_docker (e : install_env) (location : option string)
    (auto_execute : bool) : list string * list string * cli_outcome :=
  match check_docker_installed (probe e) with
  | Raise x => ([], [], Uncaught x)
  | Ok true => ([], [], Completed)
  | Ok false =>
      if negb (check_internet_connection (install_tcp e) (install_completion e))
      then ([], [], Exit 1)
      else
        match resolve_location lower location with
        | None => ([], [], reject_location (install_console e) location)
        | Some declared =>
            let net_location :=
              match declared with
              | Some l => l
              | None => check_network_location (install_http e)
              end in
            if negb (install_console e (SystemInfo (system e) (version e)))
            then ([], [], Uncaught MarkupError)
            else
            match lookup_system (system e) DOCKER_INSTALL_COMMANDS with
            | None =>
                if install_console e (UnsupportedSystem (system e))
                then ([], [], Exit 1)
                else ([], [], Uncaught MarkupError)
            | Some by_location =>
                match lookup_location net_location by_location with
                | None => ([], [], Uncaught KeyError)
                | Some install_commands =>
                    if auto_execute
                       && (String.eqb (system e) "Linux" || String.eqb (system e) "Darwin")
                    then
                      let (ran, out) :=
                        execute (install_console e) (run e) install_commands in
                      (install_commands, ran, out)
                    else (install_commands, [], Completed)
                end
            end
        end
  end.

End WithLower.

End InstallDocker.
Export InstallDocker.

(* ===================================================================== *)
(** * Vocabulary of the statements                                        *)
(* ===================================================================== *)

(** A future counts as a success when it returned a true flag. *)
Definition succeeded (f : future) : bool :=
  match f with
  | Returned true _ => true
  | _ => false
  end.

Definition successes (fs : list future) : nat :=
  length (filter (fun f => succeeded f = true) fs).

(** A mirror-source file that is present and is not valid YAML. *)
Definition malformed_yaml : config_file :=
  {| path_exists := true; read := ReadRaises YAMLError |}.

(** The configuration a writer starts from: what [read_existing] returns. *)
Definition existing_config (e : tool_env) : pyval :=
  match on_disk e with
  | LoadReturns v => v
  | FileAbsent | LoadRaises _ => PDict ∅
  end.

(** The records [read_existing] adds to the log. *)
Definition read_log (e : tool_env) (warning : string) : list (level * string) :=
  match on_disk e with
  | LoadRaises _ => [(WARNING, warning)]
  | FileAbsent | LoadReturns _ => []
  end.

(** An index entry is default-flagged when the writer's test
    [index.get("default", False)] is truthy. *)
Definition is_default (entry : gmap string pyval) : bool :=
  truthy (default (PBool false) (entry !! "default")).

Definition default_count (tables : list (gmap string pyval)) : nat :=
  length (filter (fun t => is_default t = true) tables).





(** What the registry writer logs about its change, and the document it
    hands to [json.dump], when it starts from the mapping [d] with the
    resolved mirror [m]. *)
Definition docker_change_log (m : pyval) (d : gmap string pyval)
    : list (level * string) :=
  if truthy m then [(INFO, "Updated Docker registry mirror")]
  else if bool_decide (is_Some (d !! registry_mirrors))
       then [(INFO, "Removed Docker registry mirrors configuration")]
       else [].

Definition docker_document (m : pyval) (d : gmap string pyval) : gmap string pyval :=
  if truthy m then <[registry_mirrors := PList [m]]> d else delete registry_mirrors d.

(** The document in [config.json] after a run that started from [before]:
    [before] when the file was not opened, the document written when
    [json.dump] completed, none when it was interrupted. *)
Definition docker_file_after (before : pyval) (w' : world) : option pyval :=
  match docker_json w' with
  | None => Some before
  | Some (Dumped doc) => Some doc
  | Some (Interrupted _) => None
  end.

(** The registry writer's message about its change is accepted: the
    mirror is printed only when one is set. *)
Definition docker_message_accepted (e : tool_env) (m : pyval) : bool :=
  negb (truthy m) || rich e (DockerUpdated m).

(** The documents the registry writer can hand to [json.dump]: the one it
    read, or, read as a mapping, that mapping with the one key set or
    removed for the resolved mirror. *)
Definition registry_document (self : MirrorManager) (e : tool_env) (doc : pyval)
    : Prop :=
  doc = existing_config e
  \/ exists d m,
       existing_config e = PDict d
       /\ get_default_docker_mirror (config self) (network_location self) = Ok m
       /\ doc = PDict (docker_document m d).

(** The value of a key of a document; a document that is not a mapping has
    no keys. *)
Definition sibling (doc : pyval) (k : string) : option pyval :=
  match doc with
  | PDict d => d !! k
  | _ => None
  end.

(** The index update on a list of tables: the first default-flagged table
    gets the mirror as its [url]; without one, a default entry is appended. *)
Fixpoint retarget (m : pyval) (tables : list (gmap string pyval))
    : list (gmap string pyval) :=
  match tables with
  | [] => []
  | t :: rest =>
      if is_default t then <["url" := m]> t :: rest else t :: retarget m rest
  end.

Definition apply_default (m : pyval) (tables : list (gmap string pyval))
    : list (gmap string pyval) :=
  if existsb is_default tables then retarget m tables
  else tables ++ [new_default_entry m].

(** The persisted entry list of a parsed [uv.toml]: the tables under
    [index], none when the key is missing. *)
Definition index_tables (d : gmap string pyval) (tables : list (gmap string pyval))
    : Prop :=
  d !! "index" = Some (PList (PDict <$> tables))
  \/ (d !! "index" = None /\ tables = []).

(** A computation that returns, or raises the one exception [x]. *)
Definition escapes_only {A} (x : exn) (m : M A) : Prop :=
  forall w, (exists a, snd (m w) = Ok a) \/ snd (m w) = Raise x.

(** A computation whose result and whose effect on the two files do not
    depend on the world it starts from. *)
Definition world_independent {A} (m : M A) : Prop :=
  forall w1 w2,
    snd (m w1) = snd (m w2)
    /\ (docker_json w1 = docker_json w2 ->
        docker_json (fst (m w1)) = docker_json (fst (m w2)))
    /\ (uv_toml w1 = uv_toml w2 ->
        uv_toml (fst (m w1)) = uv_toml (fst (m w2))).

(** A computation that leaves a component [f] of the world alone. *)
Definition keeps {A X} (f : world -> X) (m : M A) : Prop :=
  forall w, f (fst (m w)) = f w.

(** ** Concrete inputs for the examples *)

(** A console that is only given texts Rich accepts. *)
Definition accepting : console := fun _ => true.

(** A mirror whose text holds a closing tag that matches no open tag, and
    what Rich does with the two messages of the writers that name it. *)
Definition tagged_mirror : string := "https://host/[/v2]".


Definition example_config : pyval :=
  PDict {[ "default_pip_mirror" :=
             PDict {[ "china" := PStr "https://pypi.tuna.tsinghua.edu.cn/simple";
                      "global" := PStr "https://pypi.org/simple" ]};
           "default_docker_mirror" :=
             PDict {[ "china" := PStr "https://docker.mirrors.ustc.edu.cn";
                      "global" := PStr "" ]} ]}.

Definition china_manager : MirrorManager :=
  {| network_location := CHINA; config := example_config |}.

Definition global_manager : MirrorManager :=
  {| network_location := GLOBAL; config := example_config |}.

Definition extra_index : gmap string pyval :=
  {[ "name" := PStr "extra"; "url" := PStr "https://example.org/simple" ]}.

Definition old_default_index : gmap string pyval :=
  {[ "url" := PStr "https://old.example/simple"; "default" := PBool true ]}.

Definition uv_two_entries : tool_env :=
  {| mkdir_ok := true;
     on_disk := LoadReturns
                  (PDict {[ "index" := PList [PDict extra_index; PDict old_default_index] ]});
     open_w_ok := true;
     rich := accepting |}.

(** An entry that says in so many words that it is not the default, and
    a [uv.toml] that holds it before the default entry. *)
Definition plain_index : gmap string pyval :=
  {[ "url" := PStr "https://example.org/simple"; "default" := PBool false ]}.

Definition uv_explicit_flags : tool_env :=
  {| mkdir_ok := true;
     on_disk := LoadReturns
                  (PDict {[ "index" := PList [PDict plain_index; PDict old_default_index] ]});
     open_w_ok := true;
     rich := accepting |}.


Definition uv_read_only : tool_env :=
  {| mkdir_ok := false; on_disk := FileAbsent; open_w_ok := false; rich := accepting |}.

Definition docker_siblings : gmap string pyval :=
  {[ "auths" := PDict ∅;
     "registry-mirrors" := PList [PStr "https://a.example"; PStr "https://b.example"] ]}.

Definition docker_with_siblings : tool_env :=
  {| mkdir_ok := true; on_disk := LoadReturns (PDict docker_siblings); open_w_ok := true;
     rich := accepting |}.

Definition docker_invalid_json : tool_env :=
  {| mkdir_ok := true; on_disk := LoadRaises JSONDecodeError; open_w_ok := true;
     rich := accepting |}.






(** A configuration in which YAML read the registry mirror for [CHINA] as
    a date. *)
Definition dated_manager : MirrorManager :=
  {| network_location := CHINA;
     config := PDict {[ "default_docker_mirror" :=
                          PDict {[ "china" := PDate "2024-01-01" ]} ]} |}.

(** ** Vocabulary for the remaining functions *)

(** The [apt_mirrors] section of a configuration, as a mapping from region
    to distributions: the section when it is a mapping, the empty mapping
    when the key is missing. *)
Definition apt_section (config : gmap string pyval) (regions : gmap string pyval) : Prop :=
  config !! "apt_mirrors" = Some (PDict regions)
  \/ (config !! "apt_mirrors" = None /\ regions = ∅).

(** The distributions of a region, likewise. *)
Definition apt_region (regions : gmap string pyval) (location : NetworkLocation)
    (distros : gmap string pyval) : Prop :=
  regions !! value location = Some (PDict distros)
  \/ (regions !! value location = None /\ distros = ∅).

Definition example_apt_config : gmap string pyval :=
  {[ "apt_mirrors" :=
       PDict {[ "china" :=
                  PDict {[ "ubuntu" :=
                             PDict {[ "22.04" := PList [PStr "https://mirrors.aliyun.com/ubuntu/"] ]} ]} ]} ]}.

(** The same section with the list of mirrors directly under the
    distribution, without versions. *)
Definition listed_apt_config : gmap string pyval :=
  {[ "apt_mirrors" :=
       PDict {[ "china" :=
                  PDict {[ "ubuntu" := PList [PStr "https://mirrors.aliyun.com/ubuntu/"] ]} ]} ]}.

(** A mirror-source file that is present and cannot be opened. *)
Definition unreadable_yaml : config_file :=
  {| path_exists := true; read := ReadRaises PermissionError |}.

(** What the uv block of the status reader reports for a file. *)
Definition uv_mirror_of (f : file_read) : pyval :=
  match f with
  | LoadReturns config_data =>
      match py_get config_data "index" (PList []) with
      | Ok index => match scan_index index with Ok url => url | Raise _ => PNone end
      | Raise _ => PNone
      end
  | FileAbsent | LoadRaises _ => PNone
  end.

(** What the pip block reports. *)
Definition pip_mirror_of (p : pip_run) : option string :=
  match p with
  | PipReturns returncode stdout =>
      if (returncode =? 0)%Z then search_index_url stdout else None
  | PipRaises => None
  end.

(** What one Docker block leaves in [docker_mirror]. *)
Definition docker_mirror_of (current : pyval) (f : file_read) : pyval :=
  match f with
  | LoadReturns config_data =>
      match py_get config_data registry_mirrors (PList []) with
      | Ok mirrors =>
          match first_if_any mirrors with
          | Ok (Some first) => first
          | Ok None | Raise _ => current
          end
      | Raise _ => current
      end
  | FileAbsent | LoadRaises _ => current
  end.

(** The dictionary the status reader builds when both recommended
    lookups succeed. *)
Definition status_of (location : NetworkLocation) (e : status_env)
    (recommended_uv recommended_docker : pyval) : status :=
  let uv := uv_mirror_of (uv_file e) in
  let user := docker_mirror_of PNone (docker_user_file e) in
  {| status_network_location := location;
     uv_mirror := uv;
     pip_mirror := if truthy uv then None else pip_mirror_of (pip e);
     docker_mirror :=
       if truthy user then user else docker_mirror_of user (docker_system_file e);
     recommended_uv_mirror := recommended_uv;
     recommended_docker_mirror := recommended_docker |}.

(** Rich accepts every line of the report on a dictionary: the line for
    the current uv or pip mirror, then the lines that depend on the
    location. *)
Definition accepted_or_constant (accepts : console) (v : pyval)
    (message : pyval -> console_message) : bool :=
  negb (truthy v) || accepts (message v).

Definition status_printed (accepts : console) (st : status) : bool :=
  (if truthy (uv_mirror st) then accepts (CurrentUv (uv_mirror st))
   else match pip_mirror st with
        | Some url => String.eqb url "" || accepts (CurrentPip url)
        | None => true
        end)
  && match status_network_location st with
     | CHINA =>
         accepts (RecommendedUv (recommended_uv_mirror st))
         && accepted_or_constant accepts (docker_mirror st) CurrentDocker
         && accepted_or_constant accepts (recommended_docker_mirror st) RecommendedDocker
     | GLOBAL | UNKNOWN =>
         accepted_or_constant accepts (docker_mirror st) CurrentDocker
     end.

(** A user-level Docker file from which the status reader gets no mirror. *)
Definition no_mirror_in (f : file_read) : Prop :=
  f = FileAbsent
  \/ (exists x, f = LoadRaises x)
  \/ (exists d, f = LoadReturns (PDict d)
               /\ (d !! registry_mirrors = None \/ d !! registry_mirrors = Some (PList []))).

(** Both Docker files hold a mirror; only the system one does. *)
Definition status_files_example : status_env :=
  {| uv_file := LoadRaises TOMLDecodeError;
     pip := PipRaises;
     docker_user_file := LoadReturns (PDict docker_siblings);
     docker_system_file :=
       LoadReturns (PDict {[ "registry-mirrors" := PList [PStr "https://system.example"] ]});
     status_console := accepting |}.

(** A [uv.toml] whose default entry holds the tagged text, and what Rich
    does with the line of the report that shows it. *)
Definition status_tagged_uv : status_env :=
  {| uv_file := LoadReturns
                  (PDict {[ "index" :=
                              PList [PDict {[ "url" := PStr tagged_mirror;
                                              "default" := PBool true ]}] ]});
     pip := PipRaises;
     docker_user_file := FileAbsent;
     docker_system_file := FileAbsent;
     status_console :=
       fun message =>
         match message with
         | CurrentUv (PStr s) => negb (String.eqb s tagged_mirror)
         | _ => true
         end |}.

Definition status_system_only : status_env :=
  {| uv_file := FileAbsent;
     pip := PipRaises;
     docker_user_file := LoadRaises JSONDecodeError;
     docker_system_file :=
       LoadReturns (PDict {[ "registry-mirrors" := PList [PStr "https://system.example"] ]});
     status_console := accepting |}.

(** A string without quote characters. *)
Fixpoint unquoted (s : string) : bool :=
  match s with
  | EmptyString => true
  | String c s' => negb (is_quote c) && unquoted s'
  end.

(** [str.lower] on ASCII text, for the examples. *)
Definition ascii_lower_char (c : Ascii.ascii) : Ascii.ascii :=
  let n := Ascii.nat_of_ascii c in
  if (65 <=? n)%nat && (n <=? 90)%nat then Ascii.ascii_of_nat (n + 32) else c.

Fixpoint ascii_lower (s : string) : string :=
  match s with
  | EmptyString => EmptyString
  | String c s' => String (ascii_lower_char c) (ascii_lower s')
  end.

(** Every connection attempt succeeds, or every one times out. *)
Definition online (domain : string) : connect_outcome := Connected.
Definition offline (domain : string) : connect_outcome := TimedOut.

Definition example_cli_env : cli_env :=
  {| tcp := online;
     completion := test_domains;
     http := fun _ => RequestFails;
     loaded_config := example_config;
     files := {| uv_env := uv_two_entries; docker_env := docker_with_siblings |};
     cli_console := accepting |}.

(** The same host with a console that rejects the location [[/x]]. *)
Definition tagged_cli_env : cli_env :=
  {| tcp := online;
     completion := test_domains;
     http := fun _ => RequestFails;
     loaded_config := example_config;
     files := {| uv_env := uv_two_entries; docker_env := docker_with_siblings |};
     cli_console :=
       fun message =>
         match message with
         | InvalidLocation s => negb (String.eqb s "[/x]")
         | _ => true
         end |}.

(** The writer or writers a choice of flags runs all returned true. *)
Definition selected_writers_succeed (mirror_manager : MirrorManager) (e : env)
    (uv_only docker_only : bool) (w : world) : Prop :=
  if uv_only then snd (update_uv_mirror mirror_manager (uv_env e) w) = Ok true
  else if docker_only then snd (update_docker_mirror mirror_manager (docker_env e) w) = Ok true
  else snd (update_uv_mirror mirror_manager (uv_env e) w) = Ok true
       /\ snd (update_docker_mirror mirror_manager (docker_env e) w) = Ok true.

(** The configuration has no entry of the kind for the location. *)
Definition no_entry_for (config : pyval) (mirror_type : string)
    (location : NetworkLocation) : Prop :=
  forall c m, config = PDict c -> c !! mirror_type = Some (PDict m) ->
              m !! value location = None.

Definition offline_cli_env : cli_env :=
  {| tcp := offline;
     completion := test_domains;
     http := fun _ => RequestFails;
     loaded_config := example_config;
     files := {| uv_env := uv_two_entries; docker_env := docker_with_siblings |};
     cli_console := accepting |}.

(** A Linux host with connectivity, for the examples. *)
Definition linux_host (probe : docker_probe) (run : string -> bool) : install_env :=
  {| probe := probe;
     install_tcp := online;
     install_completion := test_domains;
     install_http := fun _ => RequestFails;
     system := "Linux";
     version := "#1 SMP";
     run := run;
     install_console := accepting |}.

(** Every command succeeds except running the downloaded script. *)
Definition all_but_sh (cmd : string) : bool := negb (String.eqb cmd "sh get-docker.sh").

(** A value that is not a table. *)
Definition not_a_table (x : pyval) : bool :=
  match x with PDict _ => false | _ => true end.

(** A [uv.toml] whose [index] array holds a number between two tables. *)
Definition uv_mixed_array : tool_env :=
  {| mkdir_ok := true;
     on_disk := LoadReturns
                  (PDict {[ "index" := PList [PDict old_default_index; PInt 3;
                                              PDict extra_index] ]});
     open_w_ok := true;
     rich := accepting |}.

(** A [config.json] that can be read and cannot be opened for writing. *)
Definition docker_unwritable : tool_env :=
  {| mkdir_ok := true; on_disk := LoadReturns (PDict docker_siblings); open_w_ok := false;
     rich := accepting |}.

(* ===================================================================== *)
(** * Properties of network.py                                            *)
(* ===================================================================== *)

Section ProbeStatistics.

Local Open Scope Q_scope.

Lemma tally_count (fs : list future) (acc : nat * Q) :
  fst (fold_left tally fs acc) = (fst acc + successes fs)%nat.
Proof.
  revert acc. induction fs as [|f fs IH]; intros acc; simpl.
  - unfold successes. simpl. lia.
  - rewrite IH. unfold successes.
    destruct f as [[|] t|]; cbn [tally fst snd].
    + rewrite filter_cons_True by reflexivity. cbn [length]. lia.
    + rewrite filter_cons_False by discriminate. reflexivity.
    + rewrite filter_cons_False by discriminate. reflexivity.
Qed.

Lemma successes_le_length (fs : list future) : (successes fs <= length fs)%nat.
Proof. unfold successes. apply length_filter. Qed.

Lemma ratio_bounds (n d : nat) :
  (0 < d)%nat -> (n <= d)%nat -> 0 <= ratio n d /\ ratio n d <= 1.
Proof.
  intros Hd Hn. unfold ratio.
  assert (Hpos : 0 < inject_Z (Z.of_nat d)).
  { change 0 with (inject_Z 0). rewrite <- Zlt_Qlt. lia. }
  split.
  - apply Qle_shift_div_l; [exact Hpos|].
    rewrite Qmult_0_l. change 0 with (inject_Z 0). rewrite <- Zle_Qle. lia.
  - apply Qle_shift_div_r; [exact Hpos|].
    rewrite Qmult_1_l. rewrite <- Zle_Qle. lia.
Qed.

Lemma ratio_zero (d : nat) : ratio 0 d == 0.
Proof. unfold ratio. simpl. unfold Qdiv. apply Qmult_0_l. Qed.

Lemma count_unfold (fs : list future) :
  _count_successful_domains fs =
    let r := fold_left tally fs (0%nat, 0) in
    {| success_rate :=
         if (0 <? length fs)%nat then ratio (fst r) (length fs) else 0;
       avg_response_time :=
         if (0 <? fst r)%nat
         then snd r / inject_Z (Z.of_nat (fst r)) else 0 |}.
Proof.
  unfold _count_successful_domains.
  destruct (fold_left tally fs (0%nat, 0)) as [s t]. reflexivity.
Qed.

(** C9.  For every list of probe results (in whatever order the futures
    complete), the success rate computed by [_count_successful_domains]
    lies between 0 and 1; and when no probe succeeded -- in particular
    when none was attempted -- the success rate is 0 and so is the average
    response time. *)
Theorem success_rate_in_unit_interval (futures_dict : list future) :
  (0 <= success_rate (_count_successful_domains futures_dict)
   /\ success_rate (_count_successful_domains futures_dict) <= 1)
  /\ (successes futures_dict = 0%nat ->
      success_rate (_count_successful_domains futures_dict) == 0
      /\ avg_response_time (_count_successful_domains futures_dict) == 0).
Proof.
  rewrite count_unfold. cbv zeta. cbn [success_rate avg_response_time].
  rewrite tally_count. cbn [fst].
  pose proof (successes_le_length futures_dict) as Hle.
  split.
  - destruct (Nat.ltb_spec 0 (length futures_dict)) as [Hpos|Hz].
    + apply ratio_bounds; [exact Hpos | exact Hle].
    + split; [apply Qle_refl | discriminate].
  - intros Hnone. rewrite Hnone. change (0 + 0)%nat with 0%nat.
    split; [|reflexivity].
    destruct (0 <? length futures_dict)%nat; [apply ratio_zero | reflexivity].
Qed.

Lemma success_rate_in_unit_interval_witness :
  successes [Returned false 0; Raised] = 0%nat
  /\ success_rate (_count_successful_domains [Returned false 0; Raised]) == 0
  /\ avg_response_time (_count_successful_domains [Returned false 0; Raised]) == 0.
Proof.
  split; [reflexivity|].
  apply (proj2 (success_rate_in_unit_interval [Returned false 0; Raised])).
  reflexivity.
Defined.

(** The zero-probe case, evaluated. *)
Example no_probe_attempted :
  _count_successful_domains [] = {| success_rate := 0; avg_response_time := 0 |}.
Proof. reflexivity. Qed.

Lemma success_rate_of_successes (fs : list future) :
  success_rate (_count_successful_domains fs) =
    if (0 <? length fs)%nat then ratio (successes fs) (length fs) else 0.
Proof. rewrite count_unfold. cbv zeta. cbn [success_rate]. by rewrite tally_count. Qed.

(** The order in which the futures complete does not matter to the rate. *)
Lemma success_rate_order_independent (fs fs' : list future) :
  fs ≡ₚ fs' ->
  success_rate (_count_successful_domains fs)
  = success_rate (_count_successful_domains fs').
Proof.
  intros Hp. rewrite !success_rate_of_successes. unfold successes.
  rewrite (Permutation_length Hp).
  by rewrite (Permutation_length (filter_Permutation _ _ _ Hp)).
Qed.

End ProbeStatistics.

Section Classification.

Local Open Scope Q_scope.

(** C1.  [check_network_location] classifies by the asymmetric rule: the
    result is [GLOBAL] exactly when the global set's success rate is
    strictly above 0.6, and [CHINA] in every other case, whatever the
    in-region rate is; [UNKNOWN] is never returned. *)
Theorem check_network_location_bias_rule :
  (forall china_results global_results : ProbeSummary,
      (classify china_results global_results = GLOBAL
         <-> 6 # 10 < success_rate global_results)
      /\ (classify china_results global_results = CHINA
         <-> success_rate global_results <= 6 # 10)
      /\ classify china_results global_results <> UNKNOWN)
  /\ (forall net : string -> head_outcome,
      let global_results :=
        _count_successful_domains
          (map (fun domain => _http_head_fast (net domain)) global_domains) in
      check_network_location net =
        if Qlt_le_dec (6 # 10) (success_rate global_results) then GLOBAL else CHINA).
Proof.
  split.
  - intros c g. unfold classify.
    destruct (Qlt_le_dec (6 # 10) (success_rate g)) as [Hgt|Hle].
    + split; [tauto|]. split; [|discriminate].
      split; [discriminate|]. intros H. exfalso. lra.
    + assert (Hc : (if Qlt_le_dec (5 # 10) (success_rate c) then CHINA else CHINA)
                   = CHINA) by (destruct (Qlt_le_dec _ _); reflexivity).
      rewrite Hc. split; [|split; [tauto | discriminate]].
      split; [discriminate|]. intros H. exfalso. lra.
  - intros net global_results. unfold check_network_location, classify.
    fold global_results.
    destruct (Qlt_le_dec (6 # 10) (success_rate global_results)); [reflexivity|].
    destruct (Qlt_le_dec _ _); reflexivity.
Qed.

(** Four of five global domains answer: [GLOBAL], although the in-region
    set does better. *)
Example four_of_five_global :
  check_network_location
    (fun domain => if String.eqb domain "google.com" then RequestFails
                   else Responded (1 # 10)) = GLOBAL.
Proof. vm_compute. reflexivity. Qed.

(** Three of five is exactly 0.6, which is not above the threshold. *)
Example three_of_five_global :
  check_network_location
    (fun domain => if String.eqb domain "google.com" || String.eqb domain "github.com"
                   then RequestFails else Responded (1 # 10)) = CHINA.
Proof. vm_compute. reflexivity. Qed.

(** Nothing answers at all: [CHINA]. *)
Example nothing_reachable :
  check_network_location (fun _ => RequestFails) = CHINA.
Proof. vm_compute. reflexivity. Qed.

End Classification.

(* ===================================================================== *)
(** * Properties of config_loader.py                                      *)
(* ===================================================================== *)

Section ConfigStore.

(** [_load_config] raises exactly the exceptions its handler does not
    list, and only for a file that is present. *)
Lemma load_config_raises_iff (f : config_file) (e : exn) :
  _load_config f = Raise e
  <-> path_exists f = true /\ read f = ReadRaises e /\ load_handler_catches e = false.
Proof.
  unfold _load_config, get_config_path.
  destruct (path_exists f); [|split; [discriminate | intros (? & _); discriminate]].
  destruct (read f) as [e'|v].
  - destruct (load_handler_catches e') eqn:Hc.
    + split; [discriminate|]. intros (_ & Heq & Hne). congruence.
    + split.
      * intros [= ->]. auto.
      * intros (_ & [= ->] & _). reflexivity.
  - split; [discriminate|]. intros (_ & ? & _). discriminate.
Qed.

(** C2, as stated, fails: for a file that is present and malformed the
    loader returns the empty configuration; so it is not true that the
    loader raises if and only if the file is present and unparseable. *)
Lemma load_config_malformed_is_not_an_error :
  path_exists malformed_yaml = true
  /\ read malformed_yaml = ReadRaises YAMLError
  /\ _load_config malformed_yaml = Ok (PDict ∅)
  /\ ~ (forall f : config_file,
          (exists e, _load_config f = Raise e)
          <-> (path_exists f = true /\ read f = ReadRaises YAMLError)).
Proof.
  repeat split.
  intros H. destruct (proj2 (H malformed_yaml)) as [e He]; [by split|].
  discriminate He.
Qed.

(** C2, amended.  [_load_config] returns the empty configuration, and no
    error, when the mirror-source file is absent and also when it is present
    but malformed: the YAML error is caught (and logged), not raised. *)
Theorem load_config_absent_or_malformed (f : config_file) :
  path_exists f = false \/ read f = ReadRaises YAMLError ->
  _load_config f = Ok (PDict ∅).
Proof.
  unfold _load_config, get_config_path.
  intros [Habsent | Hbad].
  - by rewrite Habsent.
  - rewrite Hbad. by destruct (path_exists f).
Qed.

Lemma load_config_absent_or_malformed_witness :
  (path_exists malformed_yaml = false \/ read malformed_yaml = ReadRaises YAMLError)
  /\ _load_config malformed_yaml = Ok (PDict ∅).
Proof.
  split.
  - right. reflexivity.
  - apply load_config_absent_or_malformed. right. reflexivity.
Defined.

(** C3.  [get_default_mirror] with the empty-string default follows the
    chain exact region, then [GLOBAL], then the empty string: on a
    configuration whose section for the mirror kind is a mapping (or is
    missing, which is a section without entries), it returns the entry of
    the requested region when there is one, otherwise the [GLOBAL] entry
    when there is one, otherwise the empty string. *)
Theorem get_default_mirror_fallback_chain
    (config : gmap string pyval) (mirror_type : string)
    (location : NetworkLocation) (mirrors : gmap string pyval) :
  config !! mirror_type = Some (PDict mirrors)
  \/ (config !! mirror_type = None /\ mirrors = ∅) ->
  get_default_mirror (PDict config) mirror_type location (PStr "") =
    Ok (match mirrors !! value location with
        | Some v => v
        | None =>
            match mirrors !! value GLOBAL with
            | Some g => g
            | None => PStr ""
            end
        end).
Proof.
  intros Hsection. unfold get_default_mirror. cbn [py_get].
  assert (Hm : default (PDict ∅) (config !! mirror_type) = PDict mirrors).
  { destruct Hsection as [-> | [-> ->]]; reflexivity. }
  rewrite Hm. cbn [py_get].
  destruct (mirrors !! value location), (mirrors !! value GLOBAL); reflexivity.
Qed.

Lemma get_default_mirror_fallback_chain_witness :
  get_default_pip_mirror
    (PDict {[ "default_pip_mirror" :=
                PDict {[ "global" := PStr "https://pypi.org/simple" ]} ]})
    CHINA
  = Ok (PStr "https://pypi.org/simple").
Proof.
  unfold get_default_pip_mirror.
  rewrite (get_default_mirror_fallback_chain _ _ CHINA
             {[ "global" := PStr "https://pypi.org/simple" ]}).
  - reflexivity.
  - left. reflexivity.
Defined.

(** A section that is not a mapping has no [get]. *)
Lemma get_default_mirror_section_not_a_mapping
    (config : gmap string pyval) (mirror_type : string)
    (location : NetworkLocation) (s : string) :
  config !! mirror_type = Some (PStr s) ->
  get_default_mirror (PDict config) mirror_type location (PStr "") = Raise AttributeError.
Proof. intros H. unfold get_default_mirror. cbn [py_get]. by rewrite H. Qed.

End ConfigStore.

(* ===================================================================== *)
(** * Properties of mirror_manager.py: the registry writer                *)
(* ===================================================================== *)

Section RegistryWriter.

#[local] Arguments json_serialisable : simpl never.

Lemma read_existing_run (e : tool_env) (warning : string) (w : world) :
  read_existing e warning w =
    ({| log := log w ++ read_log e warning;
        uv_toml := uv_toml w; docker_json := docker_json w |},
     Ok (existing_config e)).
Proof.
  unfold read_existing, read_log, existing_config.
  destruct w as [l u dj]. destruct (on_disk e); cbn; rewrite ?app_nil_r; reflexivity.
Qed.

Lemma json_serialisable_dict (d : gmap string pyval) :
  json_serialisable (PDict d) = true
  <-> forall k v, d !! k = Some v -> json_serialisable v = true.
Proof.
  change (json_serialisable (PDict d))
    with (map_fold (fun (_ : string) x acc => json_serialisable x && acc) true d).
  induction d as [|k v d Hk Hfold IH] using map_first_key_ind.
  - rewrite map_fold_empty. split; [|done]. intros _ k v. by rewrite lookup_empty.
  - rewrite map_fold_insert_first_key by done.
    rewrite andb_true_iff, IH. split.
    + intros [Hv Hd] k' v' Hl. destruct (decide (k = k')) as [->|Hne].
      * rewrite lookup_insert_eq in Hl. by simplify_eq.
      * rewrite lookup_insert_ne in Hl by done. eauto.
    + intros H. split.
      * apply (H k). by rewrite lookup_insert_eq.
      * intros k' v' Hl. apply (H k'). rewrite lookup_insert_ne; [done|].
        intros ->. congruence.
Qed.

Lemma docker_document_serialisable (m : pyval) (d : gmap string pyval) :
  json_serialisable (PDict d) = true -> json_serialisable m = true ->
  json_serialisable (PDict (docker_document m d)) = true.
Proof.
  rewrite !json_serialisable_dict. intros Hd Hm k v. unfold docker_document.
  destruct (truthy m).
  - destruct (decide (k = registry_mirrors)) as [->|Hne].
    + rewrite lookup_insert_eq. intros [= <-].
      change (json_serialisable (PList [m])) with (json_serialisable m && true).
      by rewrite Hm.
    + rewrite lookup_insert_ne by done. apply Hd.
  - destruct (decide (k = registry_mirrors)) as [->|Hne].
    + by rewrite lookup_delete_eq.
    + rewrite lookup_delete_ne by done. apply Hd.
Qed.

(** The lookups raise nothing but the [AttributeError] of a [get] on a
    value that is not a mapping. *)
Lemma get_default_mirror_raises (config : pyval) (mirror_type : string)
    (location : NetworkLocation) (default_value : pyval) (x : exn) :
  get_default_mirror config mirror_type location default_value = Raise x ->
  x = AttributeError.
Proof.
  unfold get_default_mirror.
  destruct config; cbn [py_get]; try (by intros [= <-]).
  destruct (default (PDict ∅) (d !! mirror_type)); cbn [py_get]; by intros [= <-].
Qed.

(** The whole run of the registry writer when the directory can be made,
    the mirror resolves, and the existing document is a mapping. *)
Lemma docker_run (self : MirrorManager) (e : tool_env) (w : world)
    (m : pyval) (d : gmap string pyval) :
  mkdir_ok e = true ->
  get_default_docker_mirror (config self) (network_location self) = Ok m ->
  existing_config e = PDict d ->
  update_docker_mirror self e w =
    let changed := log w ++ read_log e "Failed to load existing Docker config"
                         ++ docker_change_log m d in
    let failed := changed ++ [(ERROR, "Failed to update Docker mirror")] in
    if negb (docker_message_accepted e m) then
      ({| log := failed; uv_toml := uv_toml w; docker_json := docker_json w |},
       Raise MarkupError)
    else if negb (open_w_ok e) then
      ({| log := failed; uv_toml := uv_toml w; docker_json := docker_json w |},
       Ok false)
    else if json_serialisable (PDict (docker_document m d)) then
      ({| log := changed; uv_toml := uv_toml w;
          docker_json := Some (Dumped (PDict (docker_document m d))) |}, Ok true)
    else
      ({| log := failed; uv_toml := uv_toml w;
          docker_json := Some (Interrupted (PDict (docker_document m d))) |},
       Ok false).
Proof.
  intros Hmk Hm Hd.
  unfold update_docker_mirror, try_except, docker_body, bind, mkdir, open_for_writing,
    json_dump, console_print.
  rewrite Hmk, Hm. cbn [ret lift].
  rewrite read_existing_run, Hd.
  unfold docker_message_accepted, docker_change_log, docker_document, registry_mirrors.
  destruct (truthy m); cbn.
  - destruct (rich e (DockerUpdated m)); cbn; [|rewrite <- ?app_assoc; reflexivity].
    destruct (open_w_ok e); cbn; [|rewrite <- ?app_assoc; reflexivity].
    destruct (json_serialisable _); cbn; rewrite <- ?app_assoc; reflexivity.
  - destruct (d !! "registry-mirrors") eqn:Hk.
    + rewrite bool_decide_eq_true_2 by eauto. cbn.
      destruct (open_w_ok e); cbn; [|rewrite <- ?app_assoc; reflexivity].
      destruct (json_serialisable _); cbn; rewrite <- ?app_assoc; reflexivity.
    + rewrite bool_decide_eq_false_2 by (intros [? ?]; congruence). cbn.
      rewrite app_nil_r. rewrite delete_id by done.
      destruct (open_w_ok e); cbn; [|rewrite <- ?app_assoc; reflexivity].
      destruct (json_serialisable _); cbn; rewrite <- ?app_assoc; reflexivity.
Qed.

(** How any run of the registry writer ends: the file untouched and the
    result false or a [MarkupError]; or a document handed to [json.dump],
    written whole with the result true, or in part with the result false. *)
Lemma docker_outcome (self : MirrorManager) (e : tool_env) (w : world) :
  let r := update_docker_mirror self e w in
  (docker_json (fst r) = docker_json w
   /\ (snd r = Ok false \/ snd r = Raise MarkupError))
  \/ exists doc,
       registry_document self e doc
       /\ ((json_serialisable doc = true
            /\ docker_json (fst r) = Some (Dumped doc) /\ snd r = Ok true)
           \/ (json_serialisable doc = false
               /\ docker_json (fst r) = Some (Interrupted doc) /\ snd r = Ok false)).
Proof.
  cbv zeta.
  unfold update_docker_mirror, try_except, docker_body, bind, mkdir, open_for_writing,
    json_dump, console_print.
  destruct (mkdir_ok e); cbn; [|left; auto].
  destruct (get_default_docker_mirror _ _) as [m|x] eqn:Hm; cbn.
  2:{ apply get_default_mirror_raises in Hm as ->. cbn. left; auto. }
  rewrite read_existing_run.
  assert (Hdump : forall (l : list (level * string)) (doc : pyval),
    registry_document self e doc ->
    let r := (let (w', r0) :=
                let (w', r0) :=
                  (if open_w_ok e then ret tt else raise PermissionError)
                    {| log := l; uv_toml := uv_toml w; docker_json := docker_json w |} in
                match r0 with
                | Ok _ =>
                    let (w'0, r1) :=
                      (if json_serialisable doc then put_docker_json (Dumped doc)
                       else fun w0 =>
                         let (w'0, r1) := put_docker_json (Interrupted doc) w0 in
                         match r1 with
                         | Ok _ => raise TypeError w'0
                         | Raise e0 => (w'0, Raise e0)
                         end) w' in
                    match r1 with
                    | Ok _ => ret true w'0
                    | Raise e0 => (w'0, Raise e0)
                    end
                | Raise e0 => (w', Raise e0)
                end in
              match r0 with
              | Ok a => (w', Ok a)
              | Raise e0 =>
                  let (w'0, r1) := logger ERROR "Failed to update Docker mirror" w' in
                  match r1 with
                  | Ok _ =>
                      let (w'1, r2) := print_failure e0 w'0 in
                      match r2 with
                      | Ok _ => ret false w'1
                      | Raise e1 => (w'1, Raise e1)
                      end
                  | Raise e1 => (w'0, Raise e1)
                  end
              end) in
    (docker_json (fst r) = docker_json w
     /\ (snd r = Ok false \/ snd r = Raise MarkupError))
    \/ exists doc,
         registry_document self e doc
         /\ ((json_serialisable doc = true
              /\ docker_json (fst r) = Some (Dumped doc) /\ snd r = Ok true)
             \/ (json_serialisable doc = false
                 /\ docker_json (fst r) = Some (Interrupted doc) /\ snd r = Ok false))).
  { intros l doc Hdoc. cbv zeta.
    destruct (open_w_ok e); cbn; [|left; auto].
    destruct (json_serialisable doc) eqn:Hs; cbn; right; exists doc; auto. }
  destruct (truthy m) eqn:Ht; cbn.
  - destruct (existing_config e) as [| | | | | | | | |d] eqn:Hv; cbn; try (left; by auto).
    destruct (rich e (DockerUpdated m)); cbn; [|left; by auto].
    apply Hdump. right. exists d, m. unfold docker_document. by rewrite Ht.
  - destruct (existing_config e) as [| | | |s|b| |l|l|d] eqn:Hv; cbn; try (left; by auto).
    + destruct (is_substring registry_mirrors s); cbn; [left; by auto|].
      apply Hdump. by left.
    + destruct (existsb _ l); cbn; [left; by auto|]. apply Hdump. by left.
    + destruct (existsb _ l); cbn; [left; by auto|]. apply Hdump. by left.
    + unfold registry_mirrors. destruct (d !! "registry-mirrors") eqn:Hk.
      * rewrite bool_decide_eq_true_2 by eauto. cbn.
        apply Hdump. right. exists d, m. unfold docker_document. by rewrite Ht.
      * rewrite bool_decide_eq_false_2 by (intros [? ?]; congruence). cbn.
        apply Hdump. by left.
Qed.

Lemma docker_document_sibling (m : pyval) (d : gmap string pyval) (k : string) :
  k <> registry_mirrors -> docker_document m d !! k = d !! k.
Proof.
  intros Hk. unfold docker_document.
  destruct (truthy m); [by rewrite lookup_insert_ne | by rewrite lookup_delete_ne].
Qed.

(** What the registry writer does with a mirror that is a string when its
    message is accepted and the document can be encoded: it returns true,
    and the document written is the old mapping without the
    [registry-mirrors] key for the empty string, and with that key mapped
    to the list holding exactly the mirror otherwise. *)
Lemma registry_writer_sets_or_removes
    (self : MirrorManager) (e : tool_env) (w : world)
    (d : gmap string pyval) (mirror : string) :
  mkdir_ok e = true -> open_w_ok e = true ->
  get_default_docker_mirror (config self) (network_location self) = Ok (PStr mirror) ->
  existing_config e = PDict d ->
  json_serialisable (PDict d) = true ->
  docker_message_accepted e (PStr mirror) = true ->
  exists w' d',
    update_docker_mirror self e w = (w', Ok true)
    /\ docker_json w' = Some (Dumped (PDict d'))
    /\ (mirror = "" ->
        d' = delete registry_mirrors d /\ d' !! registry_mirrors = None)
    /\ (mirror <> "" ->
        d' = <[registry_mirrors := PList [PStr mirror]]> d
        /\ d' !! registry_mirrors = Some (PList [PStr mirror])).
Proof.
  intros Hmk Hop Hm Hd Hs Hacc.
  rewrite (docker_run self e w (PStr mirror) d Hmk Hm Hd). cbv zeta.
  rewrite Hacc, Hop, docker_document_serialisable by done. cbn [negb].
  eexists _, _. split; [reflexivity|]. split; [reflexivity|].
  unfold docker_document. cbn [truthy].
  split.
  - intros ->. cbn. split; [reflexivity | apply lookup_delete_eq].
  - intros Hne. rewrite (proj2 (String.eqb_neq mirror "")) by exact Hne. cbn.
    split; [reflexivity | apply lookup_insert_eq].
Qed.



(** The empty mirror after a non-empty one: the key is gone. *)
Example registry_writer_empty_after_non_empty :
  let written := <[registry_mirrors := PList [PStr "https://docker.mirrors.ustc.edu.cn"]]>
                   docker_siblings in
  let second := {| mkdir_ok := true; on_disk := LoadReturns (PDict written);
                   open_w_ok := true; rich := accepting |} in
  docker_json (fst (update_docker_mirror china_manager docker_with_siblings initial_world))
  = Some (Dumped (PDict written))
  /\ update_docker_mirror global_manager second initial_world
     = ({| log := [(INFO, "Removed Docker registry mirrors configuration")];
           uv_toml := None;
           docker_json := Some (Dumped (PDict {[ "auths" := PDict ∅ ]})) |}, Ok true).
Proof. vm_compute. split; reflexivity. Qed.

(** What can be in [config.json] after any run that started from a
    parseable document [v]. *)
Lemma docker_written_cases (self : MirrorManager) (e : tool_env) (w : world) (v : pyval) :
  on_disk e = LoadReturns v ->
  let w' := fst (update_docker_mirror self e w) in
  docker_json w' = docker_json w
  \/ docker_json w' = Some (Dumped v)
  \/ (exists d m, v = PDict d /\ docker_json w' = Some (Dumped (PDict (docker_document m d))))
  \/ (exists doc, docker_json w' = Some (Interrupted doc)
                  /\ json_serialisable doc = false
                  /\ registry_document self e doc).
Proof.
  intros Hv. cbv zeta.
  assert (Hc : existing_config e = v) by (unfold existing_config; by rewrite Hv).
  destruct (docker_outcome self e w)
    as [[H _] | (doc & Hdoc & [(_ & H & _) | (Hs & H & _)])].
  - by left.
  - destruct Hdoc as [-> | (d & m & Hd & _ & ->)].
    + right; left. by rewrite H, Hc.
    + right; right; left. exists d, m. split; [congruence | exact H].
  - right; right; right. by exists doc.
Qed.

(** The claim as it is stated fails: [json.dump] writes into the file it
    has just truncated and stops at the first value it cannot encode, here
    a mirror that YAML read as a date; the sibling key [auths] is not in
    what is left. *)
Lemma registry_writer_interrupted_dump :
  ~ (forall (self : MirrorManager) (e : tool_env) (w : world) (v : pyval) (k : string),
       on_disk e = LoadReturns v ->
       docker_json w = None ->
       k <> registry_mirrors ->
       exists doc,
         docker_file_after v (fst (update_docker_mirror self e w)) = Some doc
         /\ sibling doc k = sibling v k).
Proof.
  intros H.
  destruct (H dated_manager docker_with_siblings initial_world (PDict docker_siblings)
              "auths" eq_refl eq_refl) as (doc & Hdoc & _); [discriminate|].
  vm_compute in Hdoc. discriminate.
Qed.

(** C7.  For every parseable existing document, every key other than
    [registry-mirrors] has after the run the value it had before, in every
    run that leaves a document in the file: the document written, or the
    old one when the file was not opened.  The file is left without a
    document only when [json.dump] is interrupted, which does not happen
    when the document read and the resolved mirror can be encoded, as every
    document [json.load] returns and every string can. *)
Theorem registry_writer_preserves_siblings
    (self : MirrorManager) (e : tool_env) (w : world) (v : pyval) (k : string) :
  on_disk e = LoadReturns v ->
  docker_json w = None ->
  k <> registry_mirrors ->
  let after := docker_file_after v (fst (update_docker_mirror self e w)) in
  (forall doc, after = Some doc -> sibling doc k = sibling v k)
  /\ (json_serialisable v = true ->
      (forall m, get_default_docker_mirror (config self) (network_location self) = Ok m ->
                 json_serialisable m = true) ->
      is_Some after).
Proof.
  intros Hv Hw Hk. cbv zeta. unfold docker_file_after.
  assert (Hc : existing_config e = v) by (unfold existing_config; by rewrite Hv).
  destruct (docker_written_cases self e w v Hv)
    as [H | [H | [(d & m & -> & H) | (doc & H & Hs & Hdoc)]]]; rewrite H.
  - rewrite Hw. split; [by intros doc [= <-] | eauto].
  - split; [by intros doc [= <-] | eauto].
  - split; [|eauto]. intros doc [= <-]. cbn. by apply docker_document_sibling.
  - split; [discriminate|]. intros Hsv Hsm. exfalso.
    destruct Hdoc as [-> | (d & m & Hd & Hm & ->)].
    + rewrite Hc in Hs. congruence.
    + rewrite docker_document_serialisable in Hs;
        [discriminate | congruence | by apply Hsm].
Qed.

Lemma registry_writer_preserves_siblings_witness :
  docker_file_after (PDict docker_siblings)
    (fst (update_docker_mirror china_manager docker_with_siblings initial_world))
  = Some (PDict (<[registry_mirrors := PList [PStr "https://docker.mirrors.ustc.edu.cn"]]>
                   docker_siblings))
  /\ sibling (PDict (<[registry_mirrors := PList [PStr "https://docker.mirrors.ustc.edu.cn"]]>
                      docker_siblings)) "auths"
     = Some (PDict ∅).
Proof.
  assert (Hafter : docker_file_after (PDict docker_siblings)
            (fst (update_docker_mirror china_manager docker_with_siblings initial_world))
          = Some (PDict (<[registry_mirrors :=
                             PList [PStr "https://docker.mirrors.ustc.edu.cn"]]>
                           docker_siblings)))
    by (vm_compute; reflexivity).
  split; [exact Hafter|].
  destruct (registry_writer_preserves_siblings china_manager docker_with_siblings
              initial_world (PDict docker_siblings) "auths") as [Hframe _];
    [reflexivity | reflexivity | discriminate |].
  rewrite (Hframe _ Hafter). reflexivity.
Defined.

(** What the registry writer does with an unreadable [config.json] when
    its message is accepted and the mirror can be encoded: a warning, then
    the document that holds the [registry-mirrors] key and nothing else. *)
Lemma registry_writer_invalid_json
    (self : MirrorManager) (e : tool_env) (w : world) (x : exn) (m : pyval) :
  on_disk e = LoadRaises x ->
  mkdir_ok e = true -> open_w_ok e = true ->
  get_default_docker_mirror (config self) (network_location self) = Ok m ->
  truthy m = true ->
  json_serialisable m = true ->
  rich e (DockerUpdated m) = true ->
  update_docker_mirror self e w =
    ({| log := log w ++ [(WARNING, "Failed to load existing Docker config");
                         (INFO, "Updated Docker registry mirror")];
        uv_toml := uv_toml w;
        docker_json := Some (Dumped (PDict {[ registry_mirrors := PList [m] ]})) |},
     Ok true).
Proof.
  intros Hx Hmk Hop Hm Ht Hs Hacc.
  assert (Hd : existing_config e = PDict ∅) by (unfold existing_config; by rewrite Hx).
  rewrite (docker_run self e w m ∅ Hmk Hm Hd). cbv zeta.
  rewrite docker_document_serialisable; [|reflexivity | exact Hs].
  unfold docker_message_accepted, read_log, docker_change_log, docker_document.
  rewrite Hx, Ht, Hacc, Hop. reflexivity.
Qed.



End RegistryWriter.

(* ===================================================================== *)
(** * Properties of mirror_manager.py: the package-index writer           *)
(* ===================================================================== *)

Section PackageIndexWriter.

Lemma set_default_url_tables (m : pyval) (tables : list (gmap string pyval)) :
  set_default_url m (PDict <$> tables)
  = Ok (PDict <$> retarget m tables, existsb is_default tables).
Proof.
  induction tables as [|t rest IH]; [reflexivity|].
  cbn [fmap list_fmap set_default_url py_get retarget existsb].
  change (truthy (default (PBool false) (t !! "default"))) with (is_default t).
  destruct (is_default t); [reflexivity|].
  fold (@fmap list _ _ _ PDict rest). rewrite IH. reflexivity.
Qed.

Lemma retarget_no_default (m : pyval) (tables : list (gmap string pyval)) :
  existsb is_default tables = false -> retarget m tables = tables.
Proof.
  induction tables as [|t rest IH]; [reflexivity|].
  cbn [existsb retarget]. intros [Ht Hrest]%orb_false_iff.
  rewrite Ht. f_equal. by apply IH.
Qed.

Lemma update_index_tables (m : pyval) (tables : list (gmap string pyval)) :
  update_index m (PList (PDict <$> tables)) = Ok (PDict <$> apply_default m tables).
Proof.
  unfold update_index, apply_default. rewrite set_default_url_tables.
  destruct (existsb is_default tables) eqn:Hex; [reflexivity|].
  rewrite fmap_app, retarget_no_default by exact Hex. reflexivity.
Qed.

Lemma write_index_tables (written : list (gmap string toml_rhs))
    (tables : list (gmap string pyval)) (w : world) :
  write_index written (PDict <$> tables) w =
    ({| log := log w; uv_toml := Some (written ++ (format_entry <$> tables));
        docker_json := docker_json w |}, Ok tt).
Proof.
  revert written. induction tables as [|t rest IH]; intros written.
  - cbn. by rewrite app_nil_r.
  - cbn [fmap list_fmap write_index]. fold (@fmap list _ _ _ PDict rest).
    fold (@fmap list _ _ _ format_entry rest).
    rewrite IH, <- app_assoc. reflexivity.
Qed.

(** The whole run of the package-index writer when the directory can be
    made, the mirror resolves, and the existing document holds a list of
    tables under [index] (or no such key): the outcome depends only on
    whether the file can be opened for writing and, once it is written, on
    whether the message that names the mirror is accepted. *)
Lemma uv_run_open (self : MirrorManager) (e : tool_env) (w : world)
    (m : pyval) (d : gmap string pyval) (tables : list (gmap string pyval)) :
  mkdir_ok e = true ->
  get_default_pip_mirror (config self) (network_location self) = Ok m ->
  existing_config e = PDict d ->
  index_tables d tables ->
  update_uv_mirror self e w =
    let read := log w ++ read_log e "Failed to load existing UV config" in
    if negb (open_w_ok e) then
      ({| log := read ++ [(ERROR, "Failed to update UV mirror")];
          uv_toml := uv_toml w;
          docker_json := docker_json w |}, Ok false)
    else if rich e (UvUpdated m) then
      ({| log := read ++ [(INFO, "UV mirror updated successfully")];
          uv_toml := Some (format_entry <$> apply_default m tables);
          docker_json := docker_json w |}, Ok true)
    else
      ({| log := read ++ [(INFO, "UV mirror updated successfully");
                          (ERROR, "Failed to update UV mirror")];
          uv_toml := Some (format_entry <$> apply_default m tables);
          docker_json := docker_json w |}, Raise MarkupError).
Proof.
  intros Hmk Hm Hd Hidx.
  unfold update_uv_mirror, try_except, uv_body, bind, mkdir, open_for_writing,
    console_print.
  rewrite Hmk, Hm. cbn [ret lift].
  rewrite read_existing_run, Hd. cbn [py_contains].
  destruct Hidx as [Hidx | [Hidx ->]].
  - rewrite bool_decide_eq_true_2 by (rewrite Hidx; eauto).
    cbn [ret lift py_getitem]. rewrite Hidx, update_index_tables.
    destruct (open_w_ok e); cbn [ret lift raise negb].
    + rewrite write_index_tables.
      destruct (rich e (UvUpdated m)); cbn; rewrite <- ?app_assoc; reflexivity.
    + cbn. reflexivity.
  - rewrite bool_decide_eq_false_2 by (rewrite Hidx; intros [? ?]; congruence).
    cbn [ret lift py_setitem py_getitem]. rewrite lookup_insert_eq.
    change (PList []) with (PList (PDict <$> [])).
    rewrite (update_index_tables m []).
    destruct (open_w_ok e); cbn [ret lift raise negb].
    + rewrite write_index_tables.
      destruct (rich e (UvUpdated m)); cbn; rewrite <- ?app_assoc; reflexivity.
    + cbn. reflexivity.
Qed.

(** The file is written before the message is printed: what it holds
    does not depend on the console. *)
Lemma uv_run_file (self : MirrorManager) (e : tool_env) (w : world)
    (m : pyval) (d : gmap string pyval) (tables : list (gmap string pyval)) :
  mkdir_ok e = true -> open_w_ok e = true ->
  get_default_pip_mirror (config self) (network_location self) = Ok m ->
  existing_config e = PDict d ->
  index_tables d tables ->
  uv_toml (fst (update_uv_mirror self e w))
  = Some (format_entry <$> apply_default m tables).
Proof.
  intros Hmk Hop Hm Hd Hidx.
  rewrite (uv_run_open self e w m d tables Hmk Hm Hd Hidx). cbv zeta.
  rewrite Hop. cbn [negb]. by destruct (rich e (UvUpdated m)).
Qed.

Lemma uv_run (self : MirrorManager) (e : tool_env) (w : world)
    (m : pyval) (d : gmap string pyval) (tables : list (gmap string pyval)) :
  mkdir_ok e = true -> open_w_ok e = true ->
  rich e (UvUpdated m) = true ->
  get_default_pip_mirror (config self) (network_location self) = Ok m ->
  existing_config e = PDict d ->
  index_tables d tables ->
  update_uv_mirror self e w =
    ({| log := log w ++ read_log e "Failed to load existing UV config"
                     ++ [(INFO, "UV mirror updated successfully")];
        uv_toml := Some (format_entry <$> apply_default m tables);
        docker_json := docker_json w |}, Ok true).
Proof.
  intros Hmk Hop Hacc Hm Hd Hidx.
  rewrite (uv_run_open self e w m d tables Hmk Hm Hd Hidx). cbv zeta.
  rewrite Hop, Hacc. cbn [negb]. by rewrite <- app_assoc.
Qed.

Lemma is_default_set_url (m : pyval) (t : gmap string pyval) :
  is_default (<["url" := m]> t) = is_default t.
Proof. unfold is_default. by rewrite lookup_insert_ne. Qed.

Lemma is_default_new_entry (m : pyval) : is_default (new_default_entry m) = true.
Proof.
  unfold is_default, new_default_entry.
  rewrite lookup_insert_ne by done. by rewrite lookup_insert_eq.
Qed.

Lemma new_entry_url (m : pyval) : new_default_entry m !! "url" = Some m.
Proof. unfold new_default_entry. apply lookup_insert_eq. Qed.

Lemma default_count_cons (t : gmap string pyval) (rest : list (gmap string pyval)) :
  default_count (t :: rest)
  = ((if is_default t then 1 else 0) + default_count rest)%nat.
Proof.
  unfold default_count. destruct (is_default t) eqn:Ht.
  - by rewrite filter_cons_True.
  - rewrite filter_cons_False; [done | congruence].
Qed.

Lemma default_count_app (l1 l2 : list (gmap string pyval)) :
  default_count (l1 ++ l2) = (default_count l1 + default_count l2)%nat.
Proof. unfold default_count. by rewrite filter_app, length_app. Qed.

Lemma existsb_default_count (tables : list (gmap string pyval)) :
  existsb is_default tables = negb (Nat.eqb (default_count tables) 0).
Proof.
  induction tables as [|t rest IH]; [reflexivity|].
  cbn [existsb]. rewrite default_count_cons, IH.
  destruct (is_default t); reflexivity.
Qed.

Lemma no_default_elem (tables : list (gmap string pyval)) (t : gmap string pyval) :
  default_count tables = 0%nat -> t ∈ tables -> is_default t = false.
Proof.
  induction tables as [|t' rest IH]; intros Hc Hin.
  - by apply elem_of_nil in Hin.
  - rewrite default_count_cons in Hc.
    apply elem_of_cons in Hin as [-> | Hin].
    + destruct (is_default t'); [simpl in Hc; lia | reflexivity].
    + apply IH; [|exact Hin]. destruct (is_default t'); simpl in Hc; lia.
Qed.

Lemma retarget_count (m : pyval) (tables : list (gmap string pyval)) :
  default_count (retarget m tables) = default_count tables.
Proof.
  induction tables as [|t rest IH]; [reflexivity|].
  cbn [retarget]. destruct (is_default t) eqn:Ht.
  - by rewrite !default_count_cons, is_default_set_url.
  - by rewrite !default_count_cons, IH.
Qed.

Lemma retarget_frame (m : pyval) (tables : list (gmap string pyval))
    (i : nat) (t : gmap string pyval) :
  tables !! i = Some t -> is_default t = false -> retarget m tables !! i = Some t.
Proof.
  revert i. induction tables as [|t' rest IH]; intros i Hi Ht; [done|].
  cbn [retarget]. destruct (is_default t') eqn:Ht'.
  - destruct i as [|i]; [|exact Hi]. cbn in Hi. congruence.
  - destruct i as [|i]; [exact Hi|]. cbn. by apply IH.
Qed.

Lemma retarget_first_default (m : pyval) (tables : list (gmap string pyval)) :
  existsb is_default tables = true ->
  exists i t,
    tables !! i = Some t /\ is_default t = true
    /\ (forall j t', (j < i)%nat -> tables !! j = Some t' -> is_default t' = false)
    /\ retarget m tables = <[i := <["url" := m]> t]> tables.
Proof.
  induction tables as [|t rest IH]; [discriminate|].
  cbn [existsb retarget]. destruct (is_default t) eqn:Ht.
  - intros _. exists 0%nat, t. repeat split; [exact Ht | intros; lia].
  - cbn [orb]. intros Hex. destruct (IH Hex) as (i & t0 & Hi & Hd & Hbefore & Heq).
    exists (S i), t0. repeat split; [exact Hi | exact Hd | | by rewrite Heq].
    intros [|j] t' Hj Hl; [cbn in Hl; congruence|].
    apply (Hbefore j); [lia | exact Hl].
Qed.

Lemma retarget_urls (m : pyval) (tables : list (gmap string pyval)) (t : gmap string pyval) :
  (default_count tables <= 1)%nat ->
  t ∈ retarget m tables -> is_default t = true -> t !! "url" = Some m.
Proof.
  induction tables as [|t' rest IH]; intros Hc Hin Ht.
  - by apply elem_of_nil in Hin.
  - rewrite default_count_cons in Hc. cbn [retarget] in Hin.
    destruct (is_default t') eqn:Ht'.
    + apply elem_of_cons in Hin as [-> | Hin]; [apply lookup_insert_eq|].
      assert (is_default t = false); [|congruence].
      apply (no_default_elem rest); [simpl in Hc; lia | exact Hin].
    + apply elem_of_cons in Hin as [-> | Hin]; [congruence|].
      apply IH; [simpl in Hc; lia | exact Hin | exact Ht].
Qed.

Lemma retarget_idempotent (m : pyval) (tables : list (gmap string pyval)) :
  retarget m (retarget m tables) = retarget m tables.
Proof.
  induction tables as [|t rest IH]; [reflexivity|].
  cbn [retarget]. destruct (is_default t) eqn:Ht; cbn [retarget].
  - by rewrite is_default_set_url, Ht, insert_insert_eq.
  - by rewrite Ht, IH.
Qed.

Lemma retarget_app_no_default (m : pyval) (l1 l2 : list (gmap string pyval)) :
  existsb is_default l1 = false -> retarget m (l1 ++ l2) = l1 ++ retarget m l2.
Proof.
  induction l1 as [|t rest IH]; [reflexivity|].
  cbn [existsb]. intros [Ht Hrest]%orb_false_iff.
  cbn [app retarget]. rewrite Ht. f_equal. by apply IH.
Qed.

Lemma apply_default_has_default (m : pyval) (tables : list (gmap string pyval)) :
  existsb is_default (apply_default m tables) = true.
Proof.
  unfold apply_default. destruct (existsb is_default tables) eqn:Hex.
  - rewrite existsb_default_count, retarget_count, <- existsb_default_count. exact Hex.
  - rewrite existsb_app. cbn. by rewrite is_default_new_entry, orb_true_r.
Qed.

(** Applying the same mirror to its own output changes nothing. *)
Lemma apply_default_idempotent (m : pyval) (tables : list (gmap string pyval)) :
  apply_default m (apply_default m tables) = apply_default m tables.
Proof.
  unfold apply_default at 1. rewrite apply_default_has_default.
  unfold apply_default. destruct (existsb is_default tables) eqn:Hex.
  - apply retarget_idempotent.
  - rewrite retarget_app_no_default by exact Hex. cbn [retarget].
    rewrite is_default_new_entry. unfold new_default_entry.
    by rewrite insert_insert_eq.
Qed.

Lemma apply_default_count (m : pyval) (tables : list (gmap string pyval)) :
  (default_count tables <= 1)%nat -> default_count (apply_default m tables) = 1%nat.
Proof.
  intros Hc. unfold apply_default. rewrite existsb_default_count.
  destruct (Nat.eqb_spec (default_count tables) 0) as [Hz|Hnz]; cbn [negb].
  - rewrite default_count_app, Hz, default_count_cons, is_default_new_entry. reflexivity.
  - rewrite retarget_count. lia.
Qed.

Lemma apply_default_urls (m : pyval) (tables : list (gmap string pyval))
    (t : gmap string pyval) :
  (default_count tables <= 1)%nat ->
  t ∈ apply_default m tables -> is_default t = true -> t !! "url" = Some m.
Proof.
  intros Hc. unfold apply_default. rewrite existsb_default_count.
  destruct (Nat.eqb_spec (default_count tables) 0) as [Hz|Hnz]; cbn [negb].
  - intros [Hin | Hin]%elem_of_app Ht.
    + rewrite (no_default_elem tables t Hz Hin) in Ht. discriminate.
    + apply list_elem_of_singleton in Hin as ->. apply new_entry_url.
  - by apply retarget_urls.
Qed.

Lemma apply_default_frame (m : pyval) (tables : list (gmap string pyval))
    (i : nat) (t : gmap string pyval) :
  tables !! i = Some t -> is_default t = false -> apply_default m tables !! i = Some t.
Proof.
  intros Hi Ht. unfold apply_default. destruct (existsb is_default tables).
  - by apply retarget_frame.
  - by apply lookup_app_l_Some.
Qed.

Lemma apply_default_shape (m : pyval) (tables : list (gmap string pyval)) :
  (exists i t,
      tables !! i = Some t /\ is_default t = true
      /\ (forall j t', (j < i)%nat -> tables !! j = Some t' -> is_default t' = false)
      /\ apply_default m tables = <[i := <["url" := m]> t]> tables)
  \/ (default_count tables = 0%nat
      /\ apply_default m tables = tables ++ [new_default_entry m]).
Proof.
  unfold apply_default. destruct (existsb is_default tables) eqn:Hex.
  - left. by apply retarget_first_default.
  - right. split; [|reflexivity].
    rewrite existsb_default_count in Hex.
    by destruct (Nat.eqb_spec (default_count tables) 0).
Qed.

(** What the package-index writer does to the entries it is given, for a
    mirror whose message is accepted: the run returns true, every entry
    that is not default-flagged is formatted at the position it had, and
    the entries formatted are the old ones with the first default-flagged
    entry's [url] replaced in place, or, when no entry is default-flagged,
    the old ones with one default entry appended. *)
Lemma uv_writer_merges
    (self : MirrorManager) (e : tool_env) (w : world) (m : pyval)
    (d : gmap string pyval) (tables : list (gmap string pyval)) :
  mkdir_ok e = true -> open_w_ok e = true ->
  rich e (UvUpdated m) = true ->
  get_default_pip_mirror (config self) (network_location self) = Ok m ->
  existing_config e = PDict d ->
  d !! "index" = Some (PList (PDict <$> tables)) ->
  exists w' entries,
    update_uv_mirror self e w = (w', Ok true)
    /\ uv_toml w' = Some (format_entry <$> entries)
    /\ (forall i t,
          tables !! i = Some t -> is_default t = false -> entries !! i = Some t)
    /\ ((exists i t,
            tables !! i = Some t /\ is_default t = true
            /\ entries = <[i := <["url" := m]> t]> tables)
        \/ (default_count tables = 0%nat
            /\ entries = tables ++ [new_default_entry m])).
Proof.
  intros Hmk Hop Hacc Hm Hd Hidx.
  eexists _, (apply_default m tables).
  split; [apply (uv_run self e w m d tables); auto; by left|].
  split; [reflexivity|].
  split; [intros i t; apply apply_default_frame|].
  destruct (apply_default_shape m tables) as [(i & t & Hi & Ht & _ & Heq) | Happ].
  - left. by exists i, t.
  - by right.
Qed.

(** The formatter writes a boolean through Python's [str]. *)
Lemma format_entry_flag (t : gmap string pyval) (b : bool) :
  t !! "default" = Some (PBool b) ->
  format_entry t !! "default" = Some (Bare (if b then "True" else "False")).
Proof. intros Ht. unfold format_entry. by rewrite lookup_fmap, Ht. Qed.

(** C5.  The package-index writer leaves an entry that is not
    default-flagged where it was in the list, but it writes the whole list
    again, each value through its formatter, and the formatter writes a
    boolean as Python prints it: an entry read with [default = false] is in
    the file after the update with [default = False], which is not the flag
    it had and not a TOML value. *)
Theorem uv_writer_rewrites_flag
    (self : MirrorManager) (e : tool_env) (w : world) (m : pyval)
    (d : gmap string pyval) (tables : list (gmap string pyval))
    (i : nat) (t : gmap string pyval) :
  mkdir_ok e = true -> open_w_ok e = true ->
  get_default_pip_mirror (config self) (network_location self) = Ok m ->
  existing_config e = PDict d ->
  d !! "index" = Some (PList (PDict <$> tables)) ->
  tables !! i = Some t ->
  t !! "default" = Some (PBool false) ->
  exists written entry,
    uv_toml (fst (update_uv_mirror self e w)) = Some written
    /\ written !! i = Some entry
    /\ entry = format_entry t
    /\ entry !! "default" = Some (Bare "False").
Proof.
  intros Hmk Hop Hm Hd Hidx Hi Hflag.
  exists (format_entry <$> apply_default m tables), (format_entry t).
  split; [apply (uv_run_file self e w m d tables); auto; by left|].
  split.
  - rewrite list_lookup_fmap, (apply_default_frame m tables i t Hi); [reflexivity|].
    unfold is_default. by rewrite Hflag.
  - split; [reflexivity|]. by apply (format_entry_flag t false).
Qed.

Lemma uv_writer_rewrites_flag_witness :
  exists written entry,
    uv_toml (fst (update_uv_mirror global_manager uv_explicit_flags initial_world))
    = Some written
    /\ written !! 0%nat = Some entry
    /\ entry = format_entry plain_index
    /\ entry !! "default" = Some (Bare "False").
Proof.
  apply (uv_writer_rewrites_flag global_manager uv_explicit_flags initial_world
           (PStr "https://pypi.org/simple")
           {[ "index" := PList [PDict plain_index; PDict old_default_index] ]}
           [plain_index; old_default_index] 0 plain_index); reflexivity.
Defined.

(** The scenario of the specification, evaluated: region [GLOBAL], default
    URL [https://pypi.org/simple]; the file written holds the other index
    and one default entry with that URL, whose flag reads [True]. *)
Example uv_writer_global_scenario :
  update_uv_mirror global_manager uv_two_entries initial_world
  = ({| log := [(INFO, "UV mirror updated successfully")];
        uv_toml :=
          Some [ {[ "name" := Quoted (PStr "extra");
                    "url" := Quoted (PStr "https://example.org/simple") ]};
                 {[ "url" := Quoted (PStr "https://pypi.org/simple");
                    "default" := Bare "True" ]} ];
        docker_json := None |}, Ok true).
Proof. vm_compute. reflexivity. Qed.





(** The condition on the flags cannot be dropped.  A list with two
    entries whose flag is truthy without being a boolean is written in a
    form that does read back, and keeps both flags: only the first flagged
    entry is ever retargeted. *)
Example uv_writer_two_flags_outside_data_model :
  let flagged (u : string) : gmap string pyval :=
    {[ "url" := PStr u; "default" := PInt 1 ]} in
  let start := {| mkdir_ok := true;
                  on_disk := LoadReturns
                    (PDict {[ "index" := PList [PDict (flagged "https://a.example");
                                                PDict (flagged "https://b.example")] ]});
                  open_w_ok := true;
                  rich := accepting |} in
  let first := [flagged "https://pypi.org/simple"; flagged "https://b.example"] in
  uv_toml (fst (update_uv_mirror global_manager start initial_world))
  = Some (format_entry <$> first)
  /\ default_count first = 2%nat.
Proof. vm_compute. repeat split; reflexivity. Qed.

End PackageIndexWriter.

(* ===================================================================== *)
(** * Properties of mirror_manager.py: the batch                          *)
(* ===================================================================== *)

Section Batch.

Local Open Scope M_scope.

(** ** What leaves a handler is a [MarkupError] *)

Lemma handler_raises_markup (l : level) (s : string) (x : exn) :
  escapes_only MarkupError (logger l s ;;; print_failure x ;;; ret false)%M.
Proof. intros w. destruct x; cbn; eauto. Qed.

Lemma try_except_escapes {A} (y : exn) (m : M A) (h : exn -> M A) :
  (forall x, escapes_only y (h x)) -> escapes_only y (try_except m h).
Proof.
  intros Hh w. unfold try_except. destruct (m w) as [w' [a|x]].
  - left. by exists a.
  - apply Hh.
Qed.

Lemma update_uv_mirror_escapes (self : MirrorManager) (e : tool_env) :
  escapes_only MarkupError (update_uv_mirror self e).
Proof. apply try_except_escapes. intros. apply handler_raises_markup. Qed.

Lemma update_docker_mirror_escapes (self : MirrorManager) (e : tool_env) :
  escapes_only MarkupError (update_docker_mirror self e).
Proof. apply try_except_escapes. intros. apply handler_raises_markup. Qed.

(** ** Neither writer reads the world it runs in *)

Ltac by_computation := intros ? ?; cbn; repeat split; auto.

Lemma wi_ret {A} (a : A) : world_independent (ret a).
Proof. by_computation. Qed.

Lemma wi_lift {A} (r : res A) : world_independent (lift r).
Proof. by_computation. Qed.

Lemma wi_raise {A} (e : exn) : world_independent (@raise A e).
Proof. by_computation. Qed.

Lemma wi_logger (l : level) (s : string) : world_independent (logger l s).
Proof. by_computation. Qed.

Lemma wi_put_uv_toml (t : list (gmap string toml_rhs)) : world_independent (put_uv_toml t).
Proof. by_computation. Qed.

Lemma wi_put_docker_json (d : json_file) : world_independent (put_docker_json d).
Proof. by_computation. Qed.

Lemma wi_bind {A B} (m : M A) (k : A -> M B) :
  world_independent m -> (forall a, world_independent (k a)) ->
  world_independent (bind m k).
Proof.
  intros Hm Hk w1 w2. unfold bind.
  destruct (Hm w1 w2) as (Hr & Hd & Hu).
  destruct (m w1) as [w1' r1], (m w2) as [w2' r2]. cbn in *. subst r2.
  destruct r1 as [a|e]; cbn.
  - destruct (Hk a w1' w2') as (Hr' & Hd' & Hu'). repeat split; auto.
  - repeat split; auto.
Qed.

Lemma wi_try_except {A} (m : M A) (h : exn -> M A) :
  world_independent m -> (forall e, world_independent (h e)) ->
  world_independent (try_except m h).
Proof.
  intros Hm Hh w1 w2. unfold try_except.
  destruct (Hm w1 w2) as (Hr & Hd & Hu).
  destruct (m w1) as [w1' r1], (m w2) as [w2' r2]. cbn in *. subst r2.
  destruct r1 as [a|e]; cbn.
  - repeat split; auto.
  - destruct (Hh e w1' w2') as (Hr' & Hd' & Hu'). repeat split; auto.
Qed.

Lemma wi_if {A} (b : bool) (m1 m2 : M A) :
  world_independent m1 -> world_independent m2 ->
  world_independent (if b then m1 else m2).
Proof. by destruct b. Qed.

Create HintDb wi.
#[local] Hint Resolve wi_ret wi_lift wi_raise wi_logger wi_put_uv_toml
  wi_put_docker_json wi_bind wi_try_except wi_if : wi.

Lemma wi_read_existing (e : tool_env) (s : string) :
  world_independent (read_existing e s).
Proof. unfold read_existing. destruct (on_disk e); auto with wi. Qed.

Lemma wi_console_print (accepts : console) (message : console_message) :
  world_independent (console_print accepts message).
Proof. unfold console_print. destruct (accepts message); auto with wi. Qed.

Lemma wi_print_failure (x : exn) : world_independent (print_failure x).
Proof. destruct x; cbn [print_failure]; auto with wi. Qed.

Lemma wi_json_dump (doc : pyval) : world_independent (json_dump doc).
Proof. unfold json_dump. destruct (json_serialisable doc); auto with wi. Qed.

Lemma wi_write_index (written : list (gmap string toml_rhs)) (index : list pyval) :
  world_independent (write_index written index).
Proof.
  revert written.
  induction index as [|[] rest IH]; intros written; cbn [write_index]; auto with wi.
Qed.

#[local] Hint Resolve wi_read_existing wi_write_index wi_console_print
  wi_print_failure wi_json_dump : wi.

Ltac wi_steps :=
  repeat (first [ apply wi_try_except | apply wi_bind | apply wi_if | intro ];
          auto with wi).

Lemma wi_update_uv_mirror (self : MirrorManager) (e : tool_env) :
  world_independent (update_uv_mirror self e).
Proof. unfold update_uv_mirror, uv_body, mkdir, open_for_writing. wi_steps. Qed.

Lemma wi_update_docker_mirror (self : MirrorManager) (e : tool_env) :
  world_independent (update_docker_mirror self e).
Proof. unfold update_docker_mirror, docker_body, mkdir, open_for_writing. wi_steps. Qed.

(** ** Each writer leaves the other's file alone *)

Lemma keeps_ret {A X} (f : world -> X) (a : A) : keeps f (ret a).
Proof. by intros w. Qed.

Lemma keeps_lift {A X} (f : world -> X) (r : res A) : keeps f (lift r).
Proof. by intros w. Qed.

Lemma keeps_raise {A X} (f : world -> X) (e : exn) : keeps f (@raise A e).
Proof. by intros w. Qed.

Lemma keeps_bind {A B X} (f : world -> X) (m : M A) (k : A -> M B) :
  keeps f m -> (forall a, keeps f (k a)) -> keeps f (bind m k).
Proof.
  intros Hm Hk w. unfold bind. specialize (Hm w).
  destruct (m w) as [w' [a|e]]; cbn in *; [|exact Hm].
  by rewrite Hk.
Qed.

Lemma keeps_try_except {A X} (f : world -> X) (m : M A) (h : exn -> M A) :
  keeps f m -> (forall e, keeps f (h e)) -> keeps f (try_except m h).
Proof.
  intros Hm Hh w. unfold try_except. specialize (Hm w).
  destruct (m w) as [w' [a|e]]; cbn in *; [exact Hm|].
  by rewrite Hh.
Qed.

Lemma keeps_if {A X} (f : world -> X) (b : bool) (m1 m2 : M A) :
  keeps f m1 -> keeps f m2 -> keeps f (if b then m1 else m2).
Proof. by destruct b. Qed.

Lemma logger_keeps_uv_toml (l : level) (s : string) : keeps uv_toml (logger l s).
Proof. by intros w. Qed.

Lemma logger_keeps_docker_json (l : level) (s : string) : keeps docker_json (logger l s).
Proof. by intros w. Qed.

Lemma put_uv_toml_keeps_docker_json (t : list (gmap string toml_rhs)) :
  keeps docker_json (put_uv_toml t).
Proof. by intros w. Qed.

Lemma put_docker_json_keeps_uv_toml (d : json_file) : keeps uv_toml (put_docker_json d).
Proof. by intros w. Qed.

Create HintDb keeps.
#[local] Hint Resolve keeps_ret keeps_lift keeps_raise keeps_bind keeps_try_except
  keeps_if logger_keeps_uv_toml logger_keeps_docker_json
  put_uv_toml_keeps_docker_json put_docker_json_keeps_uv_toml : keeps.

Lemma read_existing_keeps {X} (f : world -> X) (e : tool_env) (s : string) :
  keeps f (logger WARNING s) -> keeps f (read_existing e s).
Proof. intros Hl. unfold read_existing. destruct (on_disk e); auto with keeps. Qed.

Lemma console_print_keeps {X} (f : world -> X) (accepts : console)
    (message : console_message) :
  keeps f (console_print accepts message).
Proof. unfold console_print. destruct (accepts message); auto with keeps. Qed.

Lemma print_failure_keeps {X} (f : world -> X) (x : exn) : keeps f (print_failure x).
Proof. destruct x; cbn [print_failure]; auto with keeps. Qed.

Lemma json_dump_keeps_uv_toml (doc : pyval) : keeps uv_toml (json_dump doc).
Proof. unfold json_dump. destruct (json_serialisable doc); auto with keeps. Qed.

Lemma write_index_keeps_docker_json
    (written : list (gmap string toml_rhs)) (index : list pyval) :
  keeps docker_json (write_index written index).
Proof.
  revert written.
  induction index as [|[] rest IH]; intros written; cbn [write_index]; auto with keeps.
Qed.

#[local] Hint Resolve read_existing_keeps write_index_keeps_docker_json
  console_print_keeps print_failure_keeps json_dump_keeps_uv_toml : keeps.

Ltac keeps_steps :=
  repeat (first [ apply keeps_try_except | apply keeps_bind | apply keeps_if
                | apply read_existing_keeps | intro ];
          auto with keeps).

Lemma update_uv_mirror_keeps_docker_json (self : MirrorManager) (e : tool_env) :
  keeps docker_json (update_uv_mirror self e).
Proof. unfold update_uv_mirror, uv_body, mkdir, open_for_writing. keeps_steps. Qed.

Lemma update_docker_mirror_keeps_uv_toml (self : MirrorManager) (e : tool_env) :
  keeps uv_toml (update_docker_mirror self e).
Proof. unfold update_docker_mirror, docker_body, mkdir, open_for_writing. keeps_steps. Qed.

(** When the package-index writer returns, the registry writer runs
    next, and the batch returns the two booleans; what the batch leaves in
    each file is what the file's own writer, run alone, leaves there. *)
Lemma update_all_mirrors_runs_both (self : MirrorManager) (e : env) (w : world)
    (uv : bool) :
  snd (update_uv_mirror self (uv_env e) w) = Ok uv ->
  match snd (update_docker_mirror self (docker_env e) w) with
  | Ok docker =>
      snd (update_all_mirrors self e w) = Ok (<["uv" := uv]> (<["docker" := docker]> ∅))
  | Raise x => snd (update_all_mirrors self e w) = Raise x
  end
  /\ uv_toml (fst (update_all_mirrors self e w))
     = uv_toml (fst (update_uv_mirror self (uv_env e) w))
  /\ docker_json (fst (update_all_mirrors self e w))
     = docker_json (fst (update_docker_mirror self (docker_env e) w)).
Proof.
  intros Huv.
  pose proof (update_uv_mirror_keeps_docker_json self (uv_env e) w) as Hkeep.
  unfold update_all_mirrors, bind.
  destruct (update_uv_mirror self (uv_env e) w) as [w1 r1]. cbn in Huv, Hkeep. subst r1.
  destruct (wi_update_docker_mirror self (docker_env e) w1 w) as (Hres & Hdj & _).
  pose proof (update_docker_mirror_keeps_uv_toml self (docker_env e) w1) as Hkeep'.
  destruct (update_docker_mirror self (docker_env e) w1) as [w2 r2].
  cbn in Hres, Hdj, Hkeep'. rewrite <- Hres.
  destruct r2 as [docker|x]; cbn; repeat split; auto.
Qed.



(** The package-index writer fails (its directory cannot be made) and the
    registry writer still runs and writes. *)
Example update_all_mirrors_after_uv_failure :
  update_all_mirrors china_manager
    {| uv_env := uv_read_only; docker_env := docker_with_siblings |} initial_world
  = ({| log := [(ERROR, "Failed to update UV mirror");
                (INFO, "Updated Docker registry mirror");
                (INFO, "All mirrors update results")];
        uv_toml := None;
        docker_json :=
          Some (Dumped (PDict (<[registry_mirrors :=
                                   PList [PStr "https://docker.mirrors.ustc.edu.cn"]]>
                                 docker_siblings))) |},
     Ok (<["uv" := false]> (<["docker" := true]> ∅))).
Proof. vm_compute. reflexivity. Qed.

End Batch.

(* ===================================================================== *)
(** * Properties of config_loader.py: list lookups and the manager *)
(* ===================================================================== *)

Section ConfigLookupsProps.

Lemma get_mirrors_for_location_apt (config regions distros : gmap string pyval)
    (location : NetworkLocation) :
  apt_section config regions -> apt_region regions location distros ->
  get_mirrors_for_location (PDict config) "apt_mirrors" location = Ok (PDict distros).
Proof.
  intros Hs Hr. unfold get_mirrors_for_location. cbn [py_get].
  assert (Hsec : default (PDict ∅) (config !! "apt_mirrors") = PDict regions).
  { destruct Hs as [-> | [-> ->]]; reflexivity. }
  rewrite Hsec. cbn [py_get String.eqb]. 
  change (String.eqb "apt_mirrors" "apt_mirrors") with true. cbn iota.
  destruct Hr as [-> | [-> ->]]; reflexivity.
Qed.

(** X1.  On a configuration whose [apt_mirrors] section and region entry
    are mappings or are missing, the entry of the distribution decides what
    [get_apt_mirrors] does: without entry it gives the empty list; with an
    entry and no version (none given, or the empty string) it gives the
    entry itself, whatever it is; with an entry that is a mapping and a
    version it gives the list of that version, the empty list when the
    version is unknown; with an entry that is not a mapping and a version
    it raises [AttributeError]. *)
Theorem get_apt_mirrors_lookup (config regions distros : gmap string pyval)
    (location : NetworkLocation) (distro : string) (version : option string) :
  apt_section config regions -> apt_region regions location distros ->
  (distros !! distro = None ->
     get_apt_mirrors (PDict config) location distro version = Ok (PList []))
  /\ (forall versions,
        distros !! distro = Some versions -> version_given version = None ->
        get_apt_mirrors (PDict config) location distro version = Ok versions)
  /\ (forall (versions : gmap string pyval) v,
        distros !! distro = Some (PDict versions) -> version_given version = Some v ->
        get_apt_mirrors (PDict config) location distro version
        = Ok (default (PList []) (versions !! v)))
  /\ (forall entry v,
        distros !! distro = Some entry -> not_a_table entry = true ->
        version_given version = Some v ->
        get_apt_mirrors (PDict config) location distro version = Raise AttributeError).
Proof.
  intros Hs Hr. unfold get_apt_mirrors.
  rewrite (get_mirrors_for_location_apt config regions distros location Hs Hr).
  cbn [py_contains py_get].
  split; [|split; [|split]].
  - intros Hd. rewrite bool_decide_eq_false_2; [reflexivity|].
    rewrite Hd. by intros [? ?].
  - intros versions Hd Hv. rewrite bool_decide_eq_true_2 by (rewrite Hd; eauto).
    by rewrite Hv, Hd.
  - intros versions v Hd Hv. rewrite bool_decide_eq_true_2 by (rewrite Hd; eauto).
    by rewrite Hv, Hd.
  - intros entry v Hd Hn Hv. rewrite bool_decide_eq_true_2 by (rewrite Hd; eauto).
    rewrite Hv, Hd. by destruct entry.
Qed.

Lemma get_apt_mirrors_lookup_witness :
  get_apt_mirrors (PDict example_apt_config) CHINA "ubuntu" (Some "22.04")
    = Ok (PList [PStr "https://mirrors.aliyun.com/ubuntu/"])
  /\ get_apt_mirrors (PDict example_apt_config) CHINA "debian" (Some "12") = Ok (PList [])
  /\ get_apt_mirrors (PDict example_apt_config) GLOBAL "ubuntu" None = Ok (PList [])
  /\ get_apt_mirrors (PDict listed_apt_config) CHINA "ubuntu" (Some "22.04")
     = Raise AttributeError.
Proof.
  pose proof (get_apt_mirrors_lookup example_apt_config
    {[ "china" := PDict {[ "ubuntu" :=
         PDict {[ "22.04" := PList [PStr "https://mirrors.aliyun.com/ubuntu/"] ]} ]} ]}
    {[ "ubuntu" := PDict {[ "22.04" := PList [PStr "https://mirrors.aliyun.com/ubuntu/"] ]} ]}
    CHINA) as H.
  split; [|split; [|split]].
  - destruct (H "ubuntu" (Some "22.04")) as (_ & _ & Hv & _); [by left | by left |].
    rewrite (Hv {[ "22.04" := PList [PStr "https://mirrors.aliyun.com/ubuntu/"] ]} "22.04");
      reflexivity.
  - destruct (H "debian" (Some "12")) as (Hnone & _); [by left | by left |].
    apply Hnone. reflexivity.
  - vm_compute. reflexivity.
  - destruct (get_apt_mirrors_lookup listed_apt_config
                {[ "china" := PDict {[ "ubuntu" :=
                     PList [PStr "https://mirrors.aliyun.com/ubuntu/"] ]} ]}
                {[ "ubuntu" := PList [PStr "https://mirrors.aliyun.com/ubuntu/"] ]}
                CHINA "ubuntu" (Some "22.04")) as (_ & _ & _ & Hraise);
      [by left | by left |].
    apply (Hraise (PList [PStr "https://mirrors.aliyun.com/ubuntu/"]) "22.04");
      reflexivity.
Defined.

End ConfigLookupsProps.

Section ConfigManagerProps.

(** update_config *)
(** X2.  [update_config] cannot create the mirror-source file: it returns
    true exactly when the file already exists and can be opened for
    writing.  On success the document dumped and the configuration
    [get_config] returns from then on are the new one; on failure nothing is
    dumped and the cache keeps its old value. *)
Theorem update_config_needs_existing_file
    (f : config_file) (writable : bool) (cache new_config : pyval) :
  let '(cache', dumped, result) := update_config f writable cache new_config in
  (result = true <-> path_exists f = true /\ writable = true)
  /\ (result = true -> dumped = Some new_config /\ get_config cache' = new_config)
  /\ (result = false -> dumped = None /\ get_config cache' = cache).
Proof.
  unfold update_config, open_config_for_writing, get_config_path, get_config.
  destruct (path_exists f), writable; cbn; repeat split; try tauto; try discriminate;
    intros [? ?]; discriminate.
Qed.

(** X3.  [reload_config] on a file that has disappeared or has become
    malformed replaces whatever configuration was cached by the empty one,
    and returns it without an error. *)
Theorem reload_config_degrades_to_empty (f : config_file) (cache : pyval) :
  path_exists f = false \/ read f = ReadRaises YAMLError ->
  reload_config f cache = (PDict ∅, Ok (PDict ∅)).
Proof.
  intros H. unfold reload_config.
  assert (Hl : _load_config f = Ok (PDict ∅)).
  { unfold _load_config, get_config_path. destruct H as [-> | ->]; [reflexivity|].
    by destruct (path_exists f). }
  by rewrite Hl.
Qed.

Lemma reload_config_degrades_to_empty_witness :
  reload_config malformed_yaml example_config = (PDict ∅, Ok (PDict ∅)).
Proof. apply reload_config_degrades_to_empty. right. reflexivity. Defined.

(** X4.  When [reload_config] raises, the cached configuration is the one
    from before the call; and it raises only for a file that is present and
    whose reading raised an exception other than [FileNotFoundError] and
    [YAMLError]. *)
Theorem reload_config_raises_keeps_cache (f : config_file) (cache : pyval) (e : exn) :
  snd (reload_config f cache) = Raise e ->
  fst (reload_config f cache) = cache
  /\ path_exists f = true /\ read f = ReadRaises e /\ load_handler_catches e = false.
Proof.
  unfold reload_config. destruct (_load_config f) as [v|x] eqn:Hl; cbn; [discriminate|].
  intros [= ->]. split; [reflexivity|]. by apply load_config_raises_iff.
Qed.

Lemma reload_config_raises_keeps_cache_witness :
  snd (reload_config unreadable_yaml example_config) = Raise PermissionError
  /\ fst (reload_config unreadable_yaml example_config) = example_config.
Proof.
  split; [reflexivity|].
  apply (reload_config_raises_keeps_cache unreadable_yaml example_config PermissionError).
  reflexivity.
Defined.

End ConfigManagerProps.

(* ===================================================================== *)
(** * Properties of network.py: the connectivity check *)
(* ===================================================================== *)

Section ConnectivityProps.

Lemma first_connected_iff (completed : list socket_future) :
  first_connected completed = true <-> SocketReturned true ∈ completed.
Proof.
  induction completed as [|[[|]|] rest IH]; cbn [first_connected].
  - split; [discriminate | intros H; by apply elem_of_nil in H].
  - split; [intros _; by left | reflexivity].
  - rewrite IH, elem_of_cons. split; [by right | intros [H|H]; [discriminate | done]].
  - rewrite IH, elem_of_cons. split; [by right | intros [H|H]; [discriminate | done]].
Qed.

(** X5.  Whatever the order in which the four connection attempts
    complete, [check_internet_connection] returns true exactly when at least
    one of the test domains accepts the connection; attempts that time out,
    fail to resolve, are refused or raise anything else only count as not
    connected. *)
Theorem check_internet_connection_iff
    (tcp : string -> connect_outcome) (completion : list string) :
  completion ≡ₚ test_domains ->
  (check_internet_connection tcp completion = true
   <-> exists domain, domain ∈ test_domains /\ tcp domain = Connected).
Proof.
  intros Hp. unfold check_internet_connection.
  rewrite first_connected_iff, list_elem_of_fmap.
  split.
  - intros (d & Hd & Hin). exists d. split; [by rewrite <- Hp|].
    destruct (tcp d); cbn in Hd; congruence.
  - intros (d & Hin & Hd). exists d. split; [by rewrite Hd | by rewrite Hp].
Qed.

Lemma check_internet_connection_iff_witness :
  check_internet_connection
    (fun domain => if String.eqb domain "aliyun.com" then Connected else OtherFailure)
    ["google.com"; "aliyun.com"; "baidu.com"; "cloudflare.com"] = true.
Proof.
  apply check_internet_connection_iff.
  - apply (Permutation_trans
             (l' := ["google.com"; "baidu.com"; "aliyun.com"; "cloudflare.com"])).
    + apply perm_skip, perm_swap.
    + apply (Permutation_trans
               (l' := ["baidu.com"; "google.com"; "aliyun.com"; "cloudflare.com"])).
      * apply perm_swap.
      * do 2 apply perm_skip. apply perm_swap.
  - exists "aliyun.com". split; [|reflexivity].
    unfold test_domains. set_solver.
Defined.

End ConnectivityProps.



(* ===================================================================== *)
(** * Properties of mirror_manager.py: the status reader *)
(* ===================================================================== *)

Section StatusProps.

Lemma bind_value {A B} (m : M A) (k : A -> M B) (a : A) (w : world) :
  snd (m w) = Ok a -> bind m k w = k a (fst (m w)).
Proof. unfold bind. destruct (m w) as [w' r]. cbn. by intros ->. Qed.

Lemma read_uv_mirror_value (f : file_read) (w : world) :
  snd (read_uv_mirror f w) = Ok (uv_mirror_of f).
Proof.
  unfold read_uv_mirror, uv_mirror_of.
  destruct f as [|x|v]; [reflexivity | reflexivity |].
  unfold try_except, bind, lift. cbn.
  destruct (py_get v "index" (PList [])) as [index|x]; [|reflexivity].
  by destruct (scan_index index).
Qed.

Lemma read_pip_mirror_value (p : pip_run) (w : world) :
  snd (read_pip_mirror p w) = Ok (pip_mirror_of p).
Proof.
  unfold read_pip_mirror, pip_mirror_of.
  destruct p as [|rc out]; [reflexivity|]. by destruct (rc =? 0)%Z.
Qed.

Lemma read_docker_mirror_value (current : pyval) (f : file_read)
    (found error : string) (w : world) :
  snd (read_docker_mirror current f found error w) = Ok (docker_mirror_of current f).
Proof.
  unfold read_docker_mirror, docker_mirror_of.
  destruct f as [|x|v]; [reflexivity | reflexivity |].
  unfold try_except, bind, lift. cbn.
  destruct (py_get v registry_mirrors (PList [])) as [mirrors|x]; [|reflexivity].
  by destruct (first_if_any mirrors) as [[first|]|x].
Qed.

Lemma print_or_constant_run (accepts : console) (v : pyval)
    (message : pyval -> console_message) (w : world) :
  print_or_constant accepts v message w
  = (w, if accepted_or_constant accepts v message then Ok tt else Raise MarkupError).
Proof.
  unfold print_or_constant, accepted_or_constant, console_print.
  destruct (truthy v); [|reflexivity]. by destruct (accepts (message v)).
Qed.

Lemma print_status_run (accepts : console) (st : status) (w : world) :
  print_status accepts st w
  = (w, if status_printed accepts st then Ok tt else Raise MarkupError).
Proof.
  unfold print_status, status_printed, bind.
  assert (Hfirst :
    (if truthy (uv_mirror st) then console_print accepts (CurrentUv (uv_mirror st))
     else match pip_mirror st with
          | Some url =>
              if String.eqb url "" then ret tt
              else console_print accepts (CurrentPip url)
          | None => ret tt
          end) w
    = (w, if (if truthy (uv_mirror st) then accepts (CurrentUv (uv_mirror st))
              else match pip_mirror st with
                   | Some url => String.eqb url "" || accepts (CurrentPip url)
                   | None => true
                   end)
          then Ok tt else Raise MarkupError)).
  { unfold console_print. destruct (truthy (uv_mirror st)).
    - by destruct (accepts _).
    - destruct (pip_mirror st) as [url|]; [|reflexivity].
      destruct (String.eqb url ""); [reflexivity|]. by destruct (accepts _). }
  rewrite Hfirst. clear Hfirst.
  destruct (if truthy (uv_mirror st) then _ else _); [|reflexivity]. cbn [andb].
  destruct (status_network_location st); unfold bind.
  - unfold console_print at 1. destruct (accepts (RecommendedUv _)); [|reflexivity].
    cbn [ret andb]. rewrite print_or_constant_run.
    destruct (accepted_or_constant accepts (docker_mirror st) CurrentDocker);
      [|reflexivity].
    cbn [andb]. apply print_or_constant_run.
  - apply print_or_constant_run.
  - apply print_or_constant_run.
Qed.

Lemma status_run (net : string -> head_outcome) (config : pyval)
    (e : status_env) (w : world) :
  snd (get_mirror_status net config e w) =
    match get_default_pip_mirror config (check_network_location net) with
    | Raise x => Raise x
    | Ok recommended_uv =>
        match get_default_docker_mirror config (check_network_location net) with
        | Raise x => Raise x
        | Ok recommended_docker =>
            let st := status_of (check_network_location net) e
                        recommended_uv recommended_docker in
            if status_printed (status_console e) st then Ok st else Raise MarkupError
        end
    end.
Proof.
  unfold get_mirror_status, status_of. cbv zeta.
  rewrite (bind_value _ _ _ w (read_uv_mirror_value (uv_file e) w)).
  set (w1 := fst (read_uv_mirror (uv_file e) w)).
  assert (Hpip : forall w0,
    snd ((if negb (truthy (uv_mirror_of (uv_file e)))
          then read_pip_mirror (pip e) else ret None) w0)
    = Ok (if truthy (uv_mirror_of (uv_file e)) then None else pip_mirror_of (pip e))).
  { intros w0. destruct (truthy (uv_mirror_of (uv_file e))); cbn [negb];
      [reflexivity | apply read_pip_mirror_value]. }
  rewrite (bind_value _ _ _ w1 (Hpip w1)).
  set (w2 := fst (_ w1)).
  rewrite (bind_value _ _ _ w2 (read_docker_mirror_value _ _ _ _ w2)).
  set (w3 := fst (_ w2)).
  set (user := docker_mirror_of PNone (docker_user_file e)).
  assert (Hsys : forall w0,
    snd ((if negb (truthy user)
          then read_docker_mirror user (docker_system_file e)
                 "Found Docker mirror in system config"
                 "Error reading Docker system config"
          else ret user) w0)
    = Ok (if truthy user then user else docker_mirror_of user (docker_system_file e))).
  { intros w0. destruct (truthy user); cbn [negb];
      [reflexivity | apply read_docker_mirror_value]. }
  rewrite (bind_value _ _ _ w3 (Hsys w3)).
  set (w4 := fst (_ w3)).
  unfold bind, lift.
  destruct (get_default_pip_mirror _ _) as [ru|x]; [|reflexivity].
  destruct (get_default_docker_mirror _ _) as [rd|x]; [|reflexivity].
  rewrite print_status_run. by destruct (status_printed _ _).
Qed.


(** The report on a [uv.toml] whose default entry holds a text Rich
    rejects: both lookups succeed, and the status raises. *)
Example status_rejected_line :
  snd (get_mirror_status (fun _ => RequestFails) example_config status_tagged_uv
         initial_world) = Raise MarkupError.
Proof. vm_compute. reflexivity. Qed.

Lemma docker_mirror_of_list (current first : pyval) (rest : list pyval)
    (d : gmap string pyval) :
  d !! registry_mirrors = Some (PList (first :: rest)) ->
  docker_mirror_of current (LoadReturns (PDict d)) = first.
Proof. intros H. unfold docker_mirror_of. cbn [py_get]. by rewrite H. Qed.

Lemma docker_mirror_of_nothing (current : pyval) (f : file_read) :
  no_mirror_in f -> docker_mirror_of current f = current.
Proof.
  intros [-> | [[x ->] | (d & -> & [H|H])]]; try reflexivity;
    unfold docker_mirror_of; cbn [py_get]; by rewrite H.
Qed.

(** X8.  The Docker mirror the status reports: a truthy first mirror of
    the user-level file wins, whatever the system-level file holds; when the
    user-level file gives none (absent, unreadable, no key, empty list) the
    first mirror of the system-level file is reported; when neither gives
    one, [None]. *)
Theorem status_docker_precedence
    (net : string -> head_outcome) (config : pyval) (e : status_env) (w : world)
    (st : status) :
  snd (get_mirror_status net config e w) = Ok st ->
  (forall d first rest,
      docker_user_file e = LoadReturns (PDict d) ->
      d !! registry_mirrors = Some (PList (first :: rest)) ->
      truthy first = true ->
      docker_mirror st = first)
  /\ (forall d first rest,
        no_mirror_in (docker_user_file e) ->
        docker_system_file e = LoadReturns (PDict d) ->
        d !! registry_mirrors = Some (PList (first :: rest)) ->
        docker_mirror st = first)
  /\ (no_mirror_in (docker_user_file e) ->
      no_mirror_in (docker_system_file e) ->
      docker_mirror st = PNone).
Proof.
  rewrite status_run.
  destruct (get_default_pip_mirror _ _) as [ru|x]; [|discriminate].
  destruct (get_default_docker_mirror _ _) as [rd|x]; [|discriminate].
  cbv zeta. destruct (status_printed _ _); [|discriminate].
  intros [= <-]. cbn [docker_mirror status_of].
  split; [|split].
  - intros d first rest Hu Hd Ht.
    rewrite Hu, (docker_mirror_of_list PNone first rest d Hd). by rewrite Ht.
  - intros d first rest Hu Hs Hd.
    rewrite (docker_mirror_of_nothing PNone _ Hu). cbn [truthy].
    rewrite Hs. by apply (docker_mirror_of_list PNone first rest d).
  - intros Hu Hs.
    rewrite (docker_mirror_of_nothing PNone _ Hu). cbn [truthy].
    by apply docker_mirror_of_nothing.
Qed.

Lemma status_docker_precedence_witness :
  (exists st,
     snd (get_mirror_status (fun _ => RequestFails) example_config
            status_files_example initial_world) = Ok st
     /\ docker_mirror st = PStr "https://a.example")
  /\ (exists st,
       snd (get_mirror_status (fun _ => RequestFails) example_config
              status_system_only initial_world) = Ok st
       /\ docker_mirror st = PStr "https://system.example").
Proof.
  split.
  - assert (Hr : exists st,
        snd (get_mirror_status (fun _ => RequestFails) example_config
               status_files_example initial_world) = Ok st)
      by (vm_compute; eauto).
    destruct Hr as [st Hst]. exists st. split; [exact Hst|].
    destruct (status_docker_precedence _ _ _ _ st Hst) as (Huser & _ & _).
    eapply Huser; reflexivity.
  - assert (Hr : exists st,
        snd (get_mirror_status (fun _ => RequestFails) example_config
               status_system_only initial_world) = Ok st)
      by (vm_compute; eauto).
    destruct Hr as [st Hst]. exists st. split; [exact Hst|].
    destruct (status_docker_precedence _ _ _ _ st Hst) as (_ & Hsys & _).
    eapply Hsys; [right; left; by eexists | reflexivity | reflexivity].
Defined.


Lemma first_default_url_retarget (m : pyval) (tables : list (gmap string pyval)) :
  existsb is_default tables = true ->
  first_default_url (PDict <$> retarget m tables) = Ok m.
Proof.
  induction tables as [|t rest IH]; [discriminate|].
  cbn [existsb retarget]. destruct (is_default t) eqn:Ht.
  - intros _. cbn [fmap list_fmap first_default_url py_get].
    change (truthy (default (PBool false) (<["url":=m]> t !! "default")))
      with (is_default (<["url":=m]> t)).
    rewrite is_default_set_url, Ht. by rewrite lookup_insert_eq.
  - cbn [orb]. intros Hex. cbn [fmap list_fmap first_default_url py_get].
    change (truthy (default (PBool false) (t !! "default"))) with (is_default t).
    rewrite Ht. by apply IH.
Qed.

Lemma first_default_url_appended (m : pyval) (tables : list (gmap string pyval)) :
  existsb is_default tables = false ->
  first_default_url (PDict <$> (tables ++ [new_default_entry m])) = Ok m.
Proof.
  induction tables as [|t rest IH].
  - intros _. cbn [app fmap list_fmap first_default_url py_get].
    change (truthy (default (PBool false) (new_default_entry m !! "default")))
      with (is_default (new_default_entry m)).
    by rewrite is_default_new_entry, new_entry_url.
  - cbn [existsb]. intros [Ht Hrest]%orb_false_iff.
    cbn [app fmap list_fmap first_default_url py_get].
    change (truthy (default (PBool false) (t !! "default"))) with (is_default t).
    rewrite Ht. by apply IH.
Qed.

Lemma scan_apply_default (m : pyval) (tables : list (gmap string pyval)) :
  scan_index (PList (PDict <$> apply_default m tables)) = Ok m.
Proof.
  unfold apply_default. cbn [scan_index].
  destruct (existsb is_default tables) eqn:Hex.
  - by apply first_default_url_retarget.
  - by apply first_default_url_appended.
Qed.

(** X9.  The status reader's scan and the writer's update agree on which
    entry is the default one: on the list the writer's update produces from
    any list of tables, the scan returns the mirror just applied. *)
Theorem status_scan_finds_applied_mirror
    (m : pyval) (tables : list (gmap string pyval)) (updated : list pyval) :
  update_index m (PList (PDict <$> tables)) = Ok updated ->
  scan_index (PList updated) = Ok m.
Proof.
  rewrite update_index_tables. intros [= <-]. apply scan_apply_default.
Qed.

Lemma status_scan_finds_applied_mirror_witness :
  scan_index
    (PList [PDict extra_index;
            PDict (<["url" := PStr "https://pypi.org/simple"]> old_default_index)])
  = Ok (PStr "https://pypi.org/simple").
Proof.
  apply (status_scan_finds_applied_mirror (PStr "https://pypi.org/simple")
           [extra_index; old_default_index]).
  vm_compute. reflexivity.
Defined.

(** X10.  After a successful registry update with a non-empty mirror, a
    status reader that loads the document written reports that mirror as the
    current Docker mirror; and when the status detects the region the update
    was made for, current and recommended mirror are the same. *)
Theorem status_after_registry_update
    (self : MirrorManager) (e : tool_env) (w : world)
    (d : gmap string pyval) (mirror : string) (doc : pyval)
    (net : string -> head_outcome) (files : status_env) (w' w0 : world) (st : status) :
  mkdir_ok e = true -> open_w_ok e = true ->
  get_default_docker_mirror (config self) (network_location self) = Ok (PStr mirror) ->
  mirror <> "" ->
  existing_config e = PDict d ->
  update_docker_mirror self e w = (w', Ok true) ->
  docker_json w' = Some (Dumped doc) ->
  docker_user_file files = LoadReturns doc ->
  snd (get_mirror_status net (config self) files w0) = Ok st ->
  docker_mirror st = PStr mirror
  /\ (check_network_location net = network_location self ->
      recommended_docker_mirror st = docker_mirror st).
Proof.
  intros Hmk Hop Hm Hne Hd Hrun Hdoc Hfile.
  rewrite (docker_run self e w (PStr mirror) d Hmk Hm Hd) in Hrun. cbv zeta in Hrun.
  destruct (docker_message_accepted e (PStr mirror)); cbn [negb] in Hrun;
    [|discriminate].
  rewrite Hop in Hrun. cbn [negb] in Hrun.
  destruct (json_serialisable (PDict (docker_document (PStr mirror) d)));
    [|discriminate].
  injection Hrun as <-. cbn in Hdoc. injection Hdoc as <-.
  assert (Ht : truthy (PStr mirror) = true).
  { cbn. by rewrite (proj2 (String.eqb_neq mirror "") Hne). }
  rewrite status_run.
  destruct (get_default_pip_mirror _ _) as [ru|x]; [|discriminate].
  destruct (get_default_docker_mirror (config self) (check_network_location net))
    as [rd|x] eqn:Hrd; [|discriminate].
  cbv zeta. destruct (status_printed _ _); [|discriminate].
  intros [= <-]. cbn [docker_mirror recommended_docker_mirror status_of].
  rewrite Hfile.
  rewrite (docker_mirror_of_list PNone (PStr mirror) [] (docker_document (PStr mirror) d)).
  - rewrite Ht. split; [reflexivity|]. intros Hloc. rewrite Hloc in Hrd. congruence.
  - unfold docker_document. rewrite Ht. apply lookup_insert_eq.
Qed.

Lemma status_after_registry_update_witness :
  exists st,
    snd (get_mirror_status (fun _ => RequestFails) example_config
           {| uv_file := FileAbsent; pip := PipRaises;
              docker_user_file :=
                LoadReturns (PDict (<[registry_mirrors :=
                                        PList [PStr "https://docker.mirrors.ustc.edu.cn"]]>
                                      docker_siblings));
              docker_system_file := FileAbsent;
              status_console := accepting |} initial_world) = Ok st
    /\ docker_mirror st = PStr "https://docker.mirrors.ustc.edu.cn"
    /\ recommended_docker_mirror st = docker_mirror st.
Proof.
  set (files := {| uv_file := FileAbsent; pip := PipRaises;
                   docker_user_file := _; docker_system_file := FileAbsent;
                   status_console := accepting |}).
  assert (Hr : exists st,
      snd (get_mirror_status (fun _ => RequestFails) example_config files initial_world)
      = Ok st) by (vm_compute; eauto).
  destruct Hr as [st Hst]. exists st. split; [exact Hst|].
  destruct (status_after_registry_update china_manager docker_with_siblings initial_world
              docker_siblings "https://docker.mirrors.ustc.edu.cn"
              (PDict (<[registry_mirrors :=
                          PList [PStr "https://docker.mirrors.ustc.edu.cn"]]>
                        docker_siblings))
              (fun _ => RequestFails) files
              (fst (update_docker_mirror china_manager docker_with_siblings initial_world))
              initial_world st) as [Hm Hrec];
    try reflexivity; [discriminate | exact Hst |].
  split; [exact Hm | apply Hrec; vm_compute; reflexivity].
Defined.

(** X11.  The pip configuration is a fallback only: when the uv block
    found a truthy URL the reported pip mirror is [None] whatever pip
    prints; otherwise it is what the pattern extracts from pip's output when
    pip exits with 0, and [None] when pip exits with another code or cannot
    be run. *)
Theorem status_pip_only_without_uv
    (net : string -> head_outcome) (config : pyval) (e : status_env) (w : world)
    (st : status) :
  snd (get_mirror_status net config e w) = Ok st ->
  (truthy (uv_mirror st) = true -> pip_mirror st = None)
  /\ (forall stdout,
        truthy (uv_mirror st) = false -> pip e = PipReturns 0 stdout ->
        pip_mirror st = search_index_url stdout)
  /\ (forall returncode stdout,
        pip e = PipReturns returncode stdout -> returncode <> 0%Z ->
        pip_mirror st = None)
  /\ (pip e = PipRaises -> pip_mirror st = None).
Proof.
  rewrite status_run.
  destruct (get_default_pip_mirror _ _) as [ru|x]; [|discriminate].
  destruct (get_default_docker_mirror _ _) as [rd|x]; [|discriminate].
  cbv zeta. destruct (status_printed _ _); [|discriminate].
  intros [= <-]. cbn [uv_mirror pip_mirror status_of].
  repeat split.
  - by intros ->.
  - intros stdout -> ->. reflexivity.
  - intros rc out -> Hrc. cbn [pip_mirror_of].
    rewrite (proj2 (Z.eqb_neq rc 0) Hrc). by destruct (truthy _).
  - intros ->. by destruct (truthy _).
Qed.

Lemma status_pip_only_without_uv_witness :
  exists st,
    snd (get_mirror_status (fun _ => RequestFails) example_config
           {| uv_file := LoadRaises TOMLDecodeError;
              pip := PipReturns 0 "global.index-url='https://pypi.org/simple'";
              docker_user_file := FileAbsent;
              docker_system_file := FileAbsent;
              status_console := accepting |} initial_world) = Ok st
    /\ uv_mirror st = PNone
    /\ pip_mirror st = Some "https://pypi.org/simple".
Proof.
  set (files := {| uv_file := LoadRaises TOMLDecodeError; pip := _;
                   docker_user_file := FileAbsent; docker_system_file := FileAbsent;
                   status_console := accepting |}).
  assert (Hr : exists st,
      snd (get_mirror_status (fun _ => RequestFails) example_config files initial_world)
      = Ok st /\ uv_mirror st = PNone) by (vm_compute; eauto).
  destruct Hr as (st & Hst & Huv). exists st. split; [exact Hst|]. split; [exact Huv|].
  destruct (status_pip_only_without_uv _ _ _ _ st Hst) as (_ & Hpip & _).
  rewrite (Hpip "global.index-url='https://pypi.org/simple'");
    [vm_compute; reflexivity | by rewrite Huv | reflexivity].
Defined.

End StatusProps.


Section PipPattern.

#[local] Arguments is_quote : simpl never.
#[local] Arguments String.append !_ _ / : simpl nomatch.

Lemma span_unquoted_run (url after : string) (q : Ascii.ascii) :
  unquoted url = true -> is_quote q = true ->
  span_unquoted (String.append url (String q after)) = (url, String q after).
Proof.
  intros Hu Hq.
  induction url as [|c url IH]; cbn.
  - by rewrite Hq.
  - cbn [unquoted] in Hu. apply andb_true_iff in Hu as [Hc Hu].
    apply negb_true_iff in Hc. by rewrite Hc, (IH Hu).
Qed.

(** X12.  The pattern reads back what pip prints: for a non-empty URL
    without quote characters, searching the text [global.index-url=], an
    opening quote, the URL, a closing quote and anything after it returns the
    URL. *)
Theorem search_index_url_extracts (q1 q2 : Ascii.ascii) (url after : string) :
  is_quote q1 = true -> is_quote q2 = true ->
  url <> EmptyString -> unquoted url = true ->
  search_index_url (String.append "global.index-url=" (String q1 (String.append url (String q2 after))))
  = Some url.
Proof.
  intros Hq1 Hq2 Hne Hu.
  assert (Hm : match_index_url
                 (String.append "global.index-url=" (String q1 (String.append url (String q2 after))))
               = Some url).
  { unfold match_index_url.
    change (Status.strip_prefix "global.index-url="
              (String.append "global.index-url=" (String q1 (String.append url (String q2 after)))))
      with (Some (String q1 (String.append url (String q2 after)))).
    cbn [match_quoted]. rewrite Hq1, (span_unquoted_run url after q2 Hu Hq2).
    destruct url; [done | reflexivity]. }
  destruct (String.append "global.index-url=" (String q1 (String.append url (String q2 after)))) eqn:E;
    cbn [search_index_url]; by rewrite Hm.
Qed.

Lemma search_index_url_extracts_witness :
  search_index_url "global.index-url='https://pypi.org/simple'" = Some "https://pypi.org/simple".
Proof.
  apply (search_index_url_extracts (Ascii.ascii_of_nat 39) (Ascii.ascii_of_nat 39)
           "https://pypi.org/simple" ""); [reflexivity | reflexivity | discriminate | reflexivity].
Defined.

Lemma span_unquoted_unquoted (s run rest : string) :
  span_unquoted s = (run, rest) -> unquoted run = true.
Proof.
  revert run rest. induction s as [|c s IH]; intros run rest; cbn [span_unquoted].
  - by intros [= <- _].
  - destruct (is_quote c) eqn:Hc; [by intros [= <- _]|].
    destruct (span_unquoted s) as [run' rest']. intros [= <- _].
    cbn [unquoted]. rewrite Hc. cbn [negb andb]. by eapply IH.
Qed.

Lemma match_quoted_group (s url : string) :
  match_quoted s = Some url -> url <> EmptyString /\ unquoted url = true.
Proof.
  unfold match_quoted. destruct s as [|q s]; [discriminate|].
  destruct (is_quote q); [|discriminate].
  destruct (span_unquoted s) as [run rest] eqn:Hs.
  destruct run as [|c run]; [discriminate|]. destruct rest; [discriminate|].
  intros [= <-]. split; [discriminate|]. by eapply span_unquoted_unquoted.
Qed.

(** X13.  Whatever the text searched, a URL the pattern extracts is
    never empty and contains no quote character. *)
Theorem search_index_url_group (stdout url : string) :
  search_index_url stdout = Some url ->
  url <> EmptyString /\ unquoted url = true.
Proof.
  induction stdout as [|c stdout IH]; cbn [search_index_url].
  - destruct (match_index_url "") eqn:Hm; [|discriminate].
    intros [= <-]. unfold match_index_url in Hm. discriminate.
  - destruct (match_index_url (String c stdout)) as [u|] eqn:Hm; [|exact IH].
    intros [= <-]. unfold match_index_url in Hm.
    destruct (Status.strip_prefix _ _); [|discriminate]. by eapply match_quoted_group.
Qed.

Lemma search_index_url_group_witness :
  "https://pypi.org/simple" <> EmptyString /\ unquoted "https://pypi.org/simple" = true.
Proof.
  apply (search_index_url_group "global.index-url='https://pypi.org/simple'").
  vm_compute. reflexivity.
Defined.

(** pip's listing with another key before the one looked for. *)
Example search_index_url_in_listing :
  search_index_url
    (String.append "global.trusted-host='pypi.org'"
       (String (Ascii.ascii_of_nat 10) "global.index-url='https://pypi.org/simple'"))
  = Some "https://pypi.org/simple".
Proof. vm_compute. reflexivity. Qed.

End PipPattern.


(* ===================================================================== *)
(** * Properties of cli.py *)
(* ===================================================================== *)

Section CliProps.

Variable lower : string -> string.

(** The batch returns the two booleans of the writers, or raises the
    [MarkupError] one of them raised. *)
Lemma update_all_mirrors_cases (self : MirrorManager) (e : env) (w : world) :
  (exists uv docker,
      snd (update_all_mirrors self e w) = Ok (<["uv" := uv]> (<["docker" := docker]> ∅))
      /\ snd (update_uv_mirror self (uv_env e) w) = Ok uv
      /\ snd (update_docker_mirror self (docker_env e) w) = Ok docker)
  \/ (snd (update_all_mirrors self e w) = Raise MarkupError
      /\ (snd (update_uv_mirror self (uv_env e) w) = Raise MarkupError
          \/ snd (update_docker_mirror self (docker_env e) w) = Raise MarkupError)).
Proof.
  destruct (update_uv_mirror_escapes self (uv_env e) w) as [[uv Huv] | Huv].
  - destruct (update_all_mirrors_runs_both self e w uv Huv) as (Hres & _ & _).
    destruct (update_docker_mirror_escapes self (docker_env e) w)
      as [[docker Hdocker] | Hdocker]; rewrite Hdocker in Hres.
    + left. by exists uv, docker.
    + right. split; [exact Hres | by right].
  - right. split; [|by left].
    unfold update_all_mirrors, bind.
    destruct (update_uv_mirror self (uv_env e) w) as [w1 r1]. cbn in Huv. by subst r1.
Qed.

Lemma all_values_results (uv docker : bool) :
  all_values (<["uv" := uv]> (<["docker" := docker]> ∅)) = uv && docker.
Proof. by destruct uv, docker. Qed.

Lemma writer_result_anywhere_uv (self : MirrorManager) (e : tool_env) (w1 w2 : world) :
  snd (update_uv_mirror self e w1) = snd (update_uv_mirror self e w2).
Proof. apply (wi_update_uv_mirror self e w1 w2). Qed.

Lemma writer_result_anywhere_docker (self : MirrorManager) (e : tool_env) (w1 w2 : world) :
  snd (update_docker_mirror self e w1) = snd (update_docker_mirror self e w2).
Proof. apply (wi_update_docker_mirror self e w1 w2). Qed.

Lemma exit_unless_completed (r : world * res bool) :
  (exists b, snd r = Ok b) \/ snd r = Raise MarkupError ->
  (snd (exit_unless r) = Completed <-> snd r = Ok true)
  /\ (snd (exit_unless r) = Completed
      \/ snd (exit_unless r) = Exit 1
      \/ snd (exit_unless r) = Uncaught MarkupError).
Proof.
  destruct r as [w [[|]|x]]; cbn; intros [[b Hb] | Hx]; try discriminate.
  - split; [done | by left].
  - split; [split; discriminate | by right; left].
  - injection Hx as ->. split; [split; discriminate | by right; right].
Qed.

Lemma reject_location_cases (accepts : console) (location : option string) :
  reject_location accepts location = Exit 1
  \/ reject_location accepts location = Uncaught MarkupError.
Proof.
  unfold reject_location. destruct location as [s|]; [|by left].
  destruct (accepts _); [by left | by right].
Qed.

(** X14.  The [update] command ends in one of three ways: a normal
    return, exit code 1, or the [MarkupError] of a message Rich rejects; no
    other exception escapes it.  It returns normally exactly when the
    connectivity check passes, the declared location is absent, empty or
    valid, and every writer selected by the flags returns true. *)
Theorem update_mirrors_exit_code
    (c : cli_env) (location : option string) (uv_only docker_only : bool) (w : world) :
  (snd (update_mirrors lower c location uv_only docker_only w) = Completed
   \/ snd (update_mirrors lower c location uv_only docker_only w) = Exit 1
   \/ snd (update_mirrors lower c location uv_only docker_only w) = Uncaught MarkupError)
  /\ (snd (update_mirrors lower c location uv_only docker_only w) = Completed
      <-> check_internet_connection (tcp c) (completion c) = true
          /\ exists declared,
               resolve_location lower location = Some declared
               /\ selected_writers_succeed
                    (__init__ declared (http c) (loaded_config c)) (files c)
                    uv_only docker_only w).
Proof.
  unfold update_mirrors, selected_writers_succeed.
  destruct (check_internet_connection (tcp c) (completion c)); cbn [negb];
    [|cbn; split; [by right; left | split; [discriminate | intros [? _]; discriminate]]].
  destruct (resolve_location lower location) as [declared|].
  2:{ cbn [snd]. split.
      - right. apply reject_location_cases.
      - split; [|intros (_ & ? & ? & _); discriminate].
        destruct (reject_location_cases (cli_console c) location) as [-> | ->];
          discriminate. }
  set (mm := __init__ declared (http c) (loaded_config c)).
  set (w1 := fst (logger INFO "Mirror manager initialized" w)).
  destruct uv_only; [|destruct docker_only].
  - destruct (exit_unless_completed (update_uv_mirror mm (uv_env (files c)) w1)
                (update_uv_mirror_escapes mm _ w1)) as [Hiff Hor].
    split; [exact Hor|]. rewrite Hiff, (writer_result_anywhere_uv mm _ w1 w).
    split; [intros H; split; [done | by exists declared]
           | intros (_ & d & [= <-] & H); exact H].
  - destruct (exit_unless_completed (update_docker_mirror mm (docker_env (files c)) w1)
                (update_docker_mirror_escapes mm _ w1)) as [Hiff Hor].
    split; [exact Hor|]. rewrite Hiff, (writer_result_anywhere_docker mm _ w1 w).
    split; [intros H; split; [done | by exists declared]
           | intros (_ & d & [= <-] & H); exact H].
  - pose proof (update_all_mirrors_cases mm (files c) w1) as Hall.
    rewrite (writer_result_anywhere_uv mm _ w1 w) in Hall.
    rewrite (writer_result_anywhere_docker mm _ w1 w) in Hall.
    destruct (update_all_mirrors mm (files c) w1) as [w' r]. cbn [snd] in Hall.
    destruct Hall as [(uv & docker & -> & Huv & Hdocker) | [-> Hfail]].
    + rewrite all_values_results.
      split; [destruct (uv && docker); cbn; tauto|].
      split.
      * intros Hc. split; [done|]. exists declared. split; [done|]. fold mm.
        rewrite Huv, Hdocker. destruct uv, docker; try discriminate Hc. done.
      * intros (_ & d & [= <-] & Hu & Hd). fold mm in Hu, Hd.
        rewrite Huv in Hu. rewrite Hdocker in Hd.
        injection Hu as ->. injection Hd as ->. reflexivity.
    + cbn [snd]. split; [by right; right|].
      split; [discriminate|].
      intros (_ & d & [= <-] & Hu & Hd). fold mm in Hu, Hd.
      destruct Hfail as [Hfail | Hfail]; congruence.
Qed.

(** X15.  Without connectivity, or with an invalid location string, the
    [update] command stops before doing anything: nothing is written and
    nothing is logged.  It exits with code 1, except that for an invalid
    location whose text Rich rejects the [MarkupError] of the message about
    it escapes. *)
Theorem update_mirrors_fails_before_writing
    (c : cli_env) (location : option string) (uv_only docker_only : bool) (w : world) :
  check_internet_connection (tcp c) (completion c) = false
  \/ resolve_location lower location = None ->
  fst (update_mirrors lower c location uv_only docker_only w) = w
  /\ (check_internet_connection (tcp c) (completion c) = false ->
      snd (update_mirrors lower c location uv_only docker_only w) = Exit 1)
  /\ (check_internet_connection (tcp c) (completion c) = true ->
      exists s,
        location = Some s
        /\ snd (update_mirrors lower c location uv_only docker_only w)
           = if cli_console c (InvalidLocation s) then Exit 1
             else Uncaught MarkupError).
Proof.
  unfold update_mirrors. intros [Hoff | Hloc].
  - rewrite Hoff. cbn. repeat split. discriminate.
  - rewrite Hloc. destruct (check_internet_connection _ _); cbn.
    + repeat split; [discriminate|]. intros _.
      unfold resolve_location in Hloc. destruct location as [s|]; [|discriminate].
      exists s. split; [reflexivity|]. cbn. by destruct (cli_console c _).
    + repeat split. discriminate.
Qed.

Lemma exit_unless_world (r : world * res bool) : fst (exit_unless r) = fst r.
Proof. by destruct r as [w [[|]|x]]. Qed.

(** X16.  [--uv-only] never touches [config.json], also when
    [--docker-only] is given with it (the first flag wins); and
    [--docker-only] alone never touches [uv.toml]. *)
Theorem update_mirrors_only_flags
    (c : cli_env) (location : option string) (docker_only : bool) (w : world) :
  docker_json (fst (update_mirrors lower c location true docker_only w)) = docker_json w
  /\ uv_toml (fst (update_mirrors lower c location false true w)) = uv_toml w.
Proof.
  unfold update_mirrors.
  destruct (check_internet_connection (tcp c) (completion c)); cbn [negb];
    [|by split].
  destruct (resolve_location lower location) as [declared|]; [|by split].
  cbn iota. rewrite !exit_unless_world.
  split.
  - by rewrite update_uv_mirror_keeps_docker_json.
  - by rewrite update_docker_mirror_keeps_uv_toml.
Qed.

End CliProps.

Section RegionFallback.

Lemma get_default_mirror_without_entry (config : pyval) (mirror_type : string)
    (location : NetworkLocation) (default_value : pyval) :
  no_entry_for config mirror_type location ->
  get_default_mirror config mirror_type location default_value
  = get_default_mirror config mirror_type GLOBAL default_value.
Proof.
  intros Hno. unfold get_default_mirror.
  destruct config as [| | | | | | | | |c]; try reflexivity. cbn [py_get].
  destruct (c !! mirror_type) as [section|] eqn:Hsec; cbn [default]; [|reflexivity].
  destruct section as [| | | | | | | | |m]; try reflexivity.
  unfold id. cbn [py_get]. rewrite (Hno c m eq_refl Hsec).
  by destruct (m !! value GLOBAL).
Qed.

(** X17.  A region for which the configuration has no default pip entry
    and no default Docker entry is served as [GLOBAL]: the batch update for
    that region logs, writes and returns exactly what it does for
    [GLOBAL]. *)
Theorem region_without_entry_applies_global
    (cfg : pyval) (location : NetworkLocation) (e : env) (w : world) :
  no_entry_for cfg "default_pip_mirror" location ->
  no_entry_for cfg "default_docker_mirror" location ->
  update_all_mirrors {| network_location := location; config := cfg |} e w
  = update_all_mirrors {| network_location := GLOBAL; config := cfg |} e w.
Proof.
  intros Hpip Hdocker.
  unfold update_all_mirrors, update_uv_mirror, update_docker_mirror, uv_body, docker_body,
    get_default_pip_mirror, get_default_docker_mirror.
  cbn [config network_location].
  by rewrite (get_default_mirror_without_entry _ _ _ _ Hpip),
             (get_default_mirror_without_entry _ _ _ _ Hdocker).
Qed.

Lemma region_without_entry_applies_global_witness :
  update_all_mirrors {| network_location := UNKNOWN; config := example_config |}
    {| uv_env := uv_two_entries; docker_env := docker_with_siblings |} initial_world
  = update_all_mirrors global_manager
      {| uv_env := uv_two_entries; docker_env := docker_with_siblings |} initial_world.
Proof.
  apply region_without_entry_applies_global.
  - intros c m [= <-] Hsec. vm_compute in Hsec. injection Hsec as <-. reflexivity.
  - intros c m [= <-] Hsec. vm_compute in Hsec. injection Hsec as <-. reflexivity.
Defined.

End RegionFallback.

Lemma update_mirrors_fails_before_writing_witness :
  update_mirrors ascii_lower example_cli_env (Some "Mars") false false initial_world
  = (initial_world, Exit 1)
  /\ update_mirrors ascii_lower tagged_cli_env (Some "[/x]") false false initial_world
     = (initial_world, Uncaught MarkupError).
Proof.
  split.
  - destruct (update_mirrors_fails_before_writing ascii_lower example_cli_env
                (Some "Mars") false false initial_world) as (Hw & _ & Hloc);
      [right; reflexivity|].
    destruct (Hloc eq_refl) as (s & [= <-] & Hout).
    rewrite surjective_pairing at 1. by rewrite Hw, Hout.
  - destruct (update_mirrors_fails_before_writing ascii_lower tagged_cli_env
                (Some "[/x]") false false initial_world) as (Hw & _ & Hloc);
      [right; reflexivity|].
    destruct (Hloc eq_refl) as (s & [= <-] & Hout).
    rewrite surjective_pairing at 1. by rewrite Hw, Hout.
Defined.


(* ===================================================================== *)
(** * Properties of install_docker.py *)
(* ===================================================================== *)

Section ExecuteProps.

Variable accepts : console.
Variable run : string -> bool.

Lemma execute_prefix (commands : list string) :
  fst (execute accepts run commands) `prefix_of` commands.
Proof.
  induction commands as [|cmd rest IH]; cbn [execute]; [done|].
  destruct (accepts (ProcessOutput cmd)); cbn [negb]; [|cbn; by exists rest].
  destruct (run cmd).
  - destruct (execute accepts run rest) as [ran out]. cbn in *. by apply prefix_cons.
  - cbn. by exists rest.
Qed.

Lemma execute_outcome (commands : list string) :
  snd (execute accepts run commands) = Completed
  \/ snd (execute accepts run commands) = Exit 1
  \/ snd (execute accepts run commands) = Uncaught MarkupError.
Proof.
  induction commands as [|cmd rest IH]; cbn [execute]; [by left|].
  destruct (accepts (ProcessOutput cmd)); cbn [negb]; [|by right; right].
  destruct (run cmd); [|by right; left].
  by destruct (execute accepts run rest) as [ran out].
Qed.

Lemma execute_completed (commands : list string) :
  snd (execute accepts run commands) = Completed ->
  fst (execute accepts run commands) = commands
  /\ Forall (fun cmd => run cmd = true) commands.
Proof.
  induction commands as [|cmd rest IH]; cbn [execute]; [by split|].
  destruct (accepts (ProcessOutput cmd)); cbn [negb]; [|discriminate].
  destruct (run cmd) eqn:Hc; [|discriminate].
  destruct (execute accepts run rest) as [ran out]. cbn in *. intros Hout.
  destruct (IH Hout) as [-> Hall]. split; [reflexivity | by constructor].
Qed.

Lemma execute_stops (commands : list string) (code : Z) :
  snd (execute accepts run commands) = Exit code ->
  exists before cmd,
    fst (execute accepts run commands) = before ++ [cmd]
    /\ Forall (fun c => run c = true) before
    /\ run cmd = false.
Proof.
  induction commands as [|cmd rest IH]; cbn [execute]; [discriminate|].
  destruct (accepts (ProcessOutput cmd)); cbn [negb]; [|discriminate].
  destruct (run cmd) eqn:Hc.
  - destruct (execute accepts run rest) as [ran out]. cbn in *. intros Hout.
    destruct (IH Hout) as (before & c & -> & Hb & Hf).
    exists (cmd :: before), c. repeat split; [by constructor | exact Hf].
  - intros _. exists [], cmd. repeat split; [constructor | exact Hc].
Qed.


End ExecuteProps.

Section InstallProps.

Variable lower : string -> string.




Lemma install_docker_cases
    (e : install_env) (location : option string) (auto_execute : bool) :
  (exists out, install_docker lower e location auto_execute = ([], [], out))
  \/ (exists commands,
        install_docker lower e location auto_execute = (commands, [], Completed)
        /\ (auto_execute = false
            \/ (system e <> "Linux" /\ system e <> "Darwin")))
  \/ (exists commands,
        auto_execute = true
        /\ (system e = "Linux" \/ system e = "Darwin")
        /\ install_docker lower e location auto_execute
           = (commands, fst (execute (install_console e) (run e) commands),
              snd (execute (install_console e) (run e) commands))).
Proof.
  unfold install_docker.
  destruct (check_docker_installed (probe e)) as [[|]|x]; [by left; eexists| |by left; eexists].
  destruct (check_internet_connection _ _); cbn [negb]; [|by left; eexists].
  destruct (resolve_location lower location) as [declared|]; [|by left; eexists].
  destruct (install_console e (SystemInfo _ _)); cbn [negb]; [|by left; eexists].
  destruct (lookup_system (system e) DOCKER_INSTALL_COMMANDS) as [by_location|];
    [|destruct (install_console e (UnsupportedSystem _)); by left; eexists].
  destruct (lookup_location _ by_location) as [commands|]; [|by left; eexists].
  destruct auto_execute; cbn [andb].
  - destruct (String.eqb_spec (system e) "Linux") as [Hl|Hl]; cbn [orb].
    + right; right. exists commands. split; [done|]. split; [by left|].
      by destruct (execute (install_console e) (run e) commands).
    + destruct (String.eqb_spec (system e) "Darwin") as [Hd|Hd].
      * right; right. exists commands. split; [done|]. split; [by right|].
        by destruct (execute (install_console e) (run e) commands).
      * right; left. exists commands. split; [done|]. by right.
  - right; left. exists commands. split; [done|]. by left.
Qed.

(** X19.  The commands [install] runs are a prefix of the commands it
    shows.  Nothing is run without [--auto-execute] or on a system other than
    Linux and Darwin.  When the command returns normally it has run nothing
    or everything shown, and every command run succeeded; when it has run
    something and exits with code 1, the last command run is the first that
    failed and nothing after it was run. *)
Theorem install_docker_runs_a_prefix
    (e : install_env) (location : option string) (auto_execute : bool)
    (shown ran : list string) (out : cli_outcome) :
  install_docker lower e location auto_execute = (shown, ran, out) ->
  ran `prefix_of` shown
  /\ (auto_execute = false \/ (system e <> "Linux" /\ system e <> "Darwin") -> ran = [])
  /\ (out = Completed -> ran = [] \/ ran = shown)
  /\ (out = Completed -> Forall (fun cmd => run e cmd = true) ran)
  /\ (ran <> [] -> out = Exit 1 ->
      exists before cmd,
        ran = before ++ [cmd]
        /\ Forall (fun c => run e c = true) before
        /\ run e cmd = false).
Proof.
  destruct (install_docker_cases e location auto_execute)
    as [[o H] | [(commands & H & Hwhy) | (commands & Ha & Hsys & H)]];
    rewrite H; intros [= <- <- <-].
  - split; [apply prefix_nil|]. split; [done|]. split; [intros _; by left|].
    split; [intros _; constructor | done].
  - split; [apply prefix_nil|]. split; [done|]. split; [intros _; by left|].
    split; [intros _; constructor | done].
  - split; [apply execute_prefix|].
    split; [intros [Hf | [Hl Hd]]; [congruence | destruct Hsys; congruence]|].
    split; [|split].
    + intros Hout. right. by apply execute_completed.
    + intros Hout. destruct (execute_completed _ _ _ Hout) as [-> Hall]. exact Hall.
    + intros _ Hout. by apply (execute_stops _ _ _ 1%Z).
Qed.

(** X20.  For the installation the declared location [unknown] is
    treated as [china]: on every system, the commands shown and run and the
    way the command ends are the same for both. *)
Theorem install_docker_unknown_as_china (e : install_env) (auto_execute : bool) :
  lower "unknown" = "unknown" -> lower "china" = "china" ->
  install_docker lower e (Some "unknown") auto_execute
  = install_docker lower e (Some "china") auto_execute.
Proof.
  intros Hu Hc. unfold install_docker, resolve_location.
  cbn [String.eqb Ascii.eqb Bool.eqb]. rewrite Hu, Hc.
  change (NetworkLocation_of_value "unknown") with (Some UNKNOWN).
  change (NetworkLocation_of_value "china") with (Some CHINA).
  destruct (check_docker_installed (probe e)) as [[|]|x]; try reflexivity.
  destruct (check_internet_connection _ _); cbn [negb]; [|reflexivity].
  destruct (install_console e (SystemInfo _ _)); cbn [negb]; [|reflexivity].
  unfold DOCKER_INSTALL_COMMANDS. cbn [lookup_system].
  destruct (String.eqb "Darwin" (system e)); [reflexivity|].
  destruct (String.eqb "Linux" (system e)); [reflexivity|].
  destruct (String.eqb "Windows" (system e)); reflexivity.
Qed.

End InstallProps.

(** The script is downloaded, its output is a text Rich rejects, and the
    installation ends there with the [MarkupError]. *)
Example install_docker_rejected_output :
  install_docker ascii_lower
    {| probe := ProbeRaises FileNotFoundError;
       install_tcp := online;
       install_completion := test_domains;
       install_http := fun _ => RequestFails;
       system := "Linux";
       version := "#1 SMP";
       run := fun _ => true;
       install_console :=
         fun message =>
           match message with
           | ProcessOutput cmd =>
               negb (String.eqb cmd "curl -fsSL https://get.docker.com -o get-docker.sh")
           | _ => true
           end |} (Some "global") true
  = (linux_direct, ["curl -fsSL https://get.docker.com -o get-docker.sh"],
     Uncaught MarkupError).
Proof. vm_compute. reflexivity. Qed.

Lemma install_docker_runs_a_prefix_witness :
  install_docker ascii_lower (linux_host (ProbeRaises FileNotFoundError) all_but_sh) (Some "GLOBAL") true
  = (linux_direct,
     ["curl -fsSL https://get.docker.com -o get-docker.sh"; "sh get-docker.sh"],
     Exit 1)
  /\ exists before cmd,
       ["curl -fsSL https://get.docker.com -o get-docker.sh"; "sh get-docker.sh"]
       = before ++ [cmd]
       /\ Forall (fun c => all_but_sh c = true) before
       /\ all_but_sh cmd = false.
Proof.
  assert (H : install_docker ascii_lower (linux_host (ProbeRaises FileNotFoundError) all_but_sh)
                (Some "GLOBAL") true
              = (linux_direct,
                 ["curl -fsSL https://get.docker.com -o get-docker.sh"; "sh get-docker.sh"],
                 Exit 1)) by (vm_compute; reflexivity).
  split; [exact H|].
  destruct (install_docker_runs_a_prefix ascii_lower _ _ _ _ _ _ H) as (_ & _ & _ & _ & Hstop).
  apply Hstop; [discriminate | reflexivity].
Defined.

Lemma install_docker_unknown_as_china_witness :
  install_docker ascii_lower (linux_host (ProbeRaises FileNotFoundError) (fun _ => true)) (Some "unknown") true
  = (linux_with_mirror, linux_with_mirror, Completed).
Proof.
  rewrite install_docker_unknown_as_china; [vm_compute | |]; reflexivity.
Defined.


(* ===================================================================== *)
(** * Properties of mirror_manager.py: counts and failures of the writers *)
(* ===================================================================== *)

Section WriterFailures.

Lemma apply_default_count_max (m : pyval) (tables : list (gmap string pyval)) :
  default_count (apply_default m tables) = Nat.max 1 (default_count tables).
Proof.
  unfold apply_default. rewrite existsb_default_count.
  destruct (Nat.eqb_spec (default_count tables) 0) as [Hz|Hnz]; cbn [negb].
  - rewrite default_count_app, Hz, default_count_cons, is_default_new_entry. reflexivity.
  - rewrite retarget_count. lia.
Qed.

Lemma retarget_length (m : pyval) (tables : list (gmap string pyval)) :
  length (retarget m tables) = length tables.
Proof.
  induction tables as [|t rest IH]; [reflexivity|].
  cbn [retarget]. destruct (is_default t); cbn; [reflexivity | by rewrite IH].
Qed.

(** X21.  The update of the entry list never adds a second default entry
    and never leaves none: on a list of tables [update_index] returns a
    list of tables in which the number of default-flagged entries is the
    number before, or one when there was none, and the list grows by one
    entry exactly in that case. *)
Theorem update_index_keeps_one_default
    (m : pyval) (tables : list (gmap string pyval)) (updated : list pyval) :
  update_index m (PList (PDict <$> tables)) = Ok updated ->
  exists entries,
    updated = PDict <$> entries
    /\ default_count entries = Nat.max 1 (default_count tables)
    /\ length entries
       = (length tables + (if Nat.eqb (default_count tables) 0 then 1 else 0))%nat.
Proof.
  rewrite update_index_tables. intros [= <-].
  exists (apply_default m tables).
  split; [reflexivity|]. split; [apply apply_default_count_max|].
  unfold apply_default. rewrite existsb_default_count.
  destruct (Nat.eqb (default_count tables) 0); cbn [negb].
  - by rewrite length_app.
  - rewrite retarget_length. lia.
Qed.

Lemma update_index_keeps_one_default_witness :
  exists entries,
    [PDict extra_index;
     PDict (<["url" := PStr "https://pypi.org/simple"]> old_default_index)]
    = PDict <$> entries
    /\ default_count entries = 1%nat
    /\ length entries = 2%nat.
Proof.
  apply (update_index_keeps_one_default (PStr "https://pypi.org/simple")
           [extra_index; old_default_index]).
  vm_compute. reflexivity.
Defined.

(** ** A write that stops midway *)

Lemma set_default_url_mixed (m : pyval) (tables : list (gmap string pyval))
    (tail : list pyval) :
  existsb is_default tables = true ->
  set_default_url m ((PDict <$> tables) ++ tail)
  = Ok ((PDict <$> retarget m tables) ++ tail, true).
Proof.
  induction tables as [|t rest IH]; [discriminate|].
  cbn [existsb retarget]. cbn [fmap list_fmap app set_default_url py_get].
  change (truthy (default (PBool false) (t !! "default"))) with (is_default t).
  destruct (is_default t); [reflexivity|].
  cbn [orb]. intros Hex. fold (@fmap list _ _ _ PDict rest). by rewrite (IH Hex).
Qed.

Lemma write_index_stops (written : list (gmap string toml_rhs))
    (tables : list (gmap string pyval)) (x : pyval) (rest : list pyval) (w : world) :
  not_a_table x = true ->
  write_index written ((PDict <$> tables) ++ x :: rest) w =
    ({| log := log w; uv_toml := Some (written ++ (format_entry <$> tables) ++ [∅]);
        docker_json := docker_json w |}, Raise AttributeError).
Proof.
  intros Hx. revert written. induction tables as [|t ts IH]; intros written.
  - cbn [fmap list_fmap app]. destruct x; try discriminate; reflexivity.
  - cbn [fmap list_fmap app write_index]. fold (@fmap list _ _ _ PDict ts).
    fold (@fmap list _ _ _ format_entry ts).
    rewrite IH, <- app_assoc. reflexivity.
Qed.

(** X22.  A failed package-index update is not atomic.  When the [index]
    array holds something that is not a table after the default entry, the
    update loop succeeds on the tables before it, the file is opened and the
    write loop stops at that element: the run returns false, and the file
    holds the tables before the element, as the formatter writes them, and
    one empty table, the rest being lost. *)
Theorem uv_writer_stops_midway
    (self : MirrorManager) (e : tool_env) (w : world) (m : pyval)
    (d : gmap string pyval) (tables : list (gmap string pyval))
    (x : pyval) (rest : list pyval) :
  mkdir_ok e = true -> open_w_ok e = true ->
  get_default_pip_mirror (config self) (network_location self) = Ok m ->
  existing_config e = PDict d ->
  d !! "index" = Some (PList ((PDict <$> tables) ++ x :: rest)) ->
  existsb is_default tables = true ->
  not_a_table x = true ->
  exists w',
    update_uv_mirror self e w = (w', Ok false)
    /\ uv_toml w' = Some ((format_entry <$> retarget m tables) ++ [∅]).
Proof.
  intros Hmk Hop Hm Hd Hidx Hex Hx.
  unfold update_uv_mirror, try_except, uv_body, bind, mkdir, open_for_writing.
  rewrite Hmk, Hop, Hm. cbn [ret lift].
  rewrite read_existing_run, Hd. cbn [py_contains].
  rewrite bool_decide_eq_true_2 by (rewrite Hidx; eauto).
  cbn [ret lift py_getitem]. rewrite Hidx. cbn [update_index].
  rewrite (set_default_url_mixed m tables (x :: rest) Hex).
  rewrite (write_index_stops [] (retarget m tables) x rest _ Hx).
  eexists. split; reflexivity.
Qed.

Lemma uv_writer_stops_midway_witness :
  exists w',
    update_uv_mirror global_manager uv_mixed_array initial_world = (w', Ok false)
    /\ uv_toml w'
       = Some [format_entry (<["url" := PStr "https://pypi.org/simple"]> old_default_index);
               ∅].
Proof.
  destruct (uv_writer_stops_midway global_manager uv_mixed_array initial_world
              (PStr "https://pypi.org/simple")
              {[ "index" := PList [PDict old_default_index; PInt 3; PDict extra_index] ]}
              [old_default_index] (PInt 3) [PDict extra_index])
    as (w' & Hrun & Hw); try reflexivity.
  exists w'. split; [exact Hrun | exact Hw].
Defined.

(** ** The registry writer opens its file last *)

(** X23.  The registry writer opens [config.json] last.  When it returns
    false, either the file has not been touched, or [json.dump] raised on a
    document it cannot encode after the file was truncated, and the file
    holds the part written before that.  When the document read and the
    resolved mirror can be encoded, a run that returns false has not
    touched the file. *)
Theorem registry_writer_failure_cases
    (self : MirrorManager) (e : tool_env) (w : world) :
  snd (update_docker_mirror self e w) = Ok false ->
  (docker_json (fst (update_docker_mirror self e w)) = docker_json w
   \/ exists doc,
        docker_json (fst (update_docker_mirror self e w)) = Some (Interrupted doc)
        /\ json_serialisable doc = false
        /\ registry_document self e doc)
  /\ (json_serialisable (existing_config e) = true ->
      (forall m, get_default_docker_mirror (config self) (network_location self) = Ok m ->
                 json_serialisable m = true) ->
      docker_json (fst (update_docker_mirror self e w)) = docker_json w).
Proof.
  intros Hfalse.
  destruct (docker_outcome self e w)
    as [[H _] | (doc & Hdoc & [(_ & _ & Htrue) | (Hs & H & _)])].
  - split; [by left | by intros _ _].
  - congruence.
  - split; [right; by exists doc|].
    intros Hse Hsm. exfalso.
    destruct Hdoc as [-> | (d & m & Hd & Hm & ->)]; [congruence|].
    rewrite docker_document_serialisable in Hs;
      [discriminate | congruence | by apply Hsm].
Qed.

Lemma registry_writer_failure_cases_witness :
  docker_json (fst (update_docker_mirror china_manager docker_unwritable initial_world))
  = None
  /\ docker_json (fst (update_docker_mirror dated_manager docker_with_siblings
                         initial_world))
     = Some (Interrupted (PDict (<[registry_mirrors := PList [PDate "2024-01-01"]]>
                                   docker_siblings))).
Proof.
  split.
  - destruct (registry_writer_failure_cases china_manager docker_unwritable
                initial_world) as [_ Hkept]; [vm_compute; reflexivity|].
    rewrite Hkept; [reflexivity | vm_compute; reflexivity |].
    intros m. vm_compute. by intros [= <-].
  - destruct (registry_writer_failure_cases dated_manager docker_with_siblings
                initial_world) as [[Hkept | (doc & Hdoc & _)] _];
      [vm_compute; reflexivity | vm_compute in Hkept; discriminate |].
    rewrite Hdoc. revert Hdoc. vm_compute. by intros [= <-].
Defined.

End WriterFailures.
